(** * ElementToCsvTool: the element extractor and its CSV writer

    A shallow embedding of [elementtocsvtool.js].  The script runs in a
    browser console against the loaded page; the page is modelled as a tree
    of nodes exposing exactly the properties the script reads.

    Scope of the model.
    - A JavaScript string is the list of its UTF-16 code units, so [length]
      is the script's [.length] and [firstn 100] is [substring(0, 100)].
    - An element carries the properties the script reads ([tagName], [id],
      [className], [type], [value], [placeholder]) and the two content
      attributes its selectors test ([type] and [for]).  The properties are
      left independent of each other; a statement that needs a link between
      them (an [INPUT] whose [type] is [checkbox], say) assumes it.
    - Selectors are matched as in an HTML document: a type selector against
      the local name, [[type="v"]] against the attribute value up to ASCII
      case, [[for="v"]] against the attribute value exactly.
    - [document.title], [document.body], [document.querySelector],
      [document.querySelectorAll] and [document.createElement] are the
      Document's own: no embed, form, iframe, img or object element of the
      page is named after one of them.
    - What the host does outside this fragment is a parameter ([host]): the
      Unicode lower-casing of a string, and the answer to a
      [label[for="..."]] query whose interpolated id holds a character that
      a CSS string cannot carry verbatim. *)

From Stdlib Require Import Strings.String Strings.Ascii Numbers.DecimalString.
From Stdlib Require Import List NArith ZArith Bool Lia.
Import ListNotations.

(** ** Strings *)

Definition jsString : Type := list N.

(** A literal of the script, as code units. *)
Definition str (s : string) : jsString :=
  map N_of_ascii (list_ascii_of_string s).

Definition dquote : N := 34.
Definition newline : N := 10.

Fixpoint strEqb (a b : jsString) : bool :=
  match a, b with
  | [], [] => true
  | x :: a', y :: b' => N.eqb x y && strEqb a' b'
  | _, _ => false
  end.

(** Truthiness of a string value: every string but the empty one. *)
Definition truthy (s : jsString) : bool :=
  match s with [] => false | _ :: _ => true end.

(** [a || b] on strings. *)
Definition orElse (a b : jsString) : jsString :=
  if truthy a then a else b.

(** ECMAScript WhiteSpace and LineTerminator code units, the ones
    [String.prototype.trim] strips. *)
Definition isWhiteSpace (c : N) : bool :=
  (N.leb 9 c && N.leb c 13)
  || N.eqb c 32 || N.eqb c 160 || N.eqb c 5760
  || (N.leb 8192 c && N.leb c 8202)
  || N.eqb c 8232 || N.eqb c 8233 || N.eqb c 8239 || N.eqb c 8287
  || N.eqb c 12288 || N.eqb c 65279.

Fixpoint trimStart (s : jsString) : jsString :=
  match s with
  | c :: s' => if isWhiteSpace c then trimStart s' else s
  | [] => []
  end.

Definition trimEnd (s : jsString) : jsString := rev (trimStart (rev s)).

Definition trim (s : jsString) : jsString := trimEnd (trimStart s).

(** [Array.prototype.join]. *)
Fixpoint join (sep : jsString) (parts : list jsString) : jsString :=
  match parts with
  | [] => []
  | [p] => p
  | p :: rest => p ++ sep ++ join sep rest
  end.

(** [s.length > 100 ? s.substring(0, 100) + '...' : s] *)
Definition truncate100 (s : jsString) : jsString :=
  if Nat.ltb 100 (length s) then firstn 100 s ++ str "..." else s.

(** ASCII lower-casing, used for the case-insensitive attribute match. *)
Definition asciiLowerUnit (c : N) : N :=
  if N.leb 65 c && N.leb c 90 then (c + 32)%N else c.

Definition asciiLower (s : jsString) : jsString := map asciiLowerUnit s.

(** Number to string, for the two console lines (the counts are integers). *)
Definition numberToString (z : Z) : jsString :=
  str (NilEmpty.string_of_int (Z.to_int z)).

(** ** The document tree *)

(** [className] is a string on an HTML element and an object
    (SVGAnimatedString) on an SVG one. *)
Inductive classValue : Type :=
  | ClassString (s : jsString)
  | ClassObject.

Record props : Type := mkProps {
  localName : jsString;
  tagName : jsString;
  elemId : jsString;
  className : classValue;
  elemType : jsString;
  elemValue : jsString;
  placeholder : jsString;
  typeAttr : option jsString;
  forAttr : option jsString
}.

Inductive node : Type :=
  | TextNode (data : jsString)
  | CommentNode (data : jsString)
  | ElementNode (e : element)
with element : Type :=
  | mkElement (p : props) (children : list node).

Definition elemProps (e : element) : props :=
  match e with mkElement p _ => p end.

Definition childNodes (e : element) : list node :=
  match e with mkElement _ cs => cs end.

Coercion elemProps : element >-> props.

Record document : Type := mkDocument {
  title : jsString;
  docChildren : list node
}.

(** The descendant text content of a node: the data of its Text
    descendants, in tree order. *)
Fixpoint nodeText (n : node) : jsString :=
  match n with
  | TextNode d => d
  | CommentNode _ => []
  | ElementNode (mkElement _ cs) => concat (map nodeText cs)
  end.

Definition textContent (e : element) : jsString :=
  concat (map nodeText (childNodes e)).

(** The elements of a subtree in tree order, its root included. *)
Fixpoint inclusiveDescendants (n : node) : list element :=
  match n with
  | TextNode _ => []
  | CommentNode _ => []
  | ElementNode (mkElement p cs) =>
      mkElement p cs :: flat_map inclusiveDescendants cs
  end.

Definition elementsOf (roots : list node) : list element :=
  flat_map inclusiveDescendants roots.

(** ** Selectors *)

(** The two shapes the script's constant selectors have: [name] and
    [name[type="v"]]. *)
Inductive selector : Type :=
  | Tag (name : jsString)
  | TagType (name : jsString) (v : jsString).

Definition attrIs (a : option jsString) (v : jsString) : bool :=
  match a with
  | Some x => strEqb x v
  | None => false
  end.

Definition attrIsNoCase (a : option jsString) (v : jsString) : bool :=
  match a with
  | Some x => strEqb (asciiLower x) v
  | None => false
  end.

Definition matches (e : element) (s : selector) : bool :=
  match s with
  | Tag name => strEqb (localName e) name
  | TagType name v => strEqb (localName e) name && attrIsNoCase (typeAttr e) v
  end.

Definition matchesAny (sel : list selector) (e : element) : bool :=
  existsb (matches e) sel.

(** [root.querySelectorAll(sel)] over the children of [root]. *)
Definition querySelectorAll (roots : list node) (sel : list selector)
  : list element :=
  filter (matchesAny sel) (elementsOf roots).

(** ** Completions and the host *)

Inductive exception : Type :=
  | SyntaxError
  | TypeError.

(** How an evaluation ends: with a value, or abruptly. *)
Inductive completion (A : Type) : Type :=
  | Normal (a : A)
  | Throw (x : exception).

Arguments Normal {A} a.
Arguments Throw {A} x.

Definition bind {A B : Type} (c : completion A) (k : A -> completion B)
  : completion B :=
  match c with
  | Normal a => k a
  | Throw x => Throw x
  end.

Notation "'let*' x ':=' c 'in' k" := (bind c (fun x => k))
  (at level 10, x name, c at level 100, k at level 200).

(** What the script takes from its host beyond the modelled fragment:
    [String.prototype.toLowerCase], and [document.querySelector] for a
    selector text the model does not interpret (see [cssStringSafe]). *)
Record host : Type := mkHost {
  toLowerCase : jsString -> jsString;
  hostQuerySelector : document -> jsString -> completion (option element)
}.

(** A code unit that stands for itself inside a double-quoted CSS string:
    not the quote, the backslash, a newline (LF, FF, CR), NUL or a
    surrogate. *)
Definition cssVerbatim (c : N) : bool :=
  negb (N.eqb c 34 || N.eqb c 92 || N.eqb c 10 || N.eqb c 12 || N.eqb c 13
        || N.eqb c 0 || (N.leb 55296 c && N.leb c 57343)).

Definition cssStringSafe (s : jsString) : bool := forallb cssVerbatim s.

(** The text of the selector [`label[for="${id}"]`]. *)
Definition labelSelector (id : jsString) : jsString :=
  str "label[for=" ++ [dquote] ++ id ++ [dquote] ++ str "]".

Definition isLabelFor (id : jsString) (e : element) : bool :=
  strEqb (localName e) (str "label") && attrIs (forAttr e) id.

(** The first [label] of the document, in tree order, whose [for]
    attribute is [id]. *)
Definition firstLabelFor (d : document) (id : jsString) : option element :=
  find (isLabelFor id) (elementsOf (docChildren d)).

(** [select.options], the list of options of the HTML standard: walk the
    descendants of the select in tree order and keep the [option]
    elements, without going below an [option], a nested [select], an
    [hr], a [datalist], or an [optgroup] that lies inside another
    [optgroup]. *)
Fixpoint optionsBelow (inOptgroup : bool) (n : node) : list element :=
  match n with
  | TextNode _ => []
  | CommentNode _ => []
  | ElementNode (mkElement p cs) =>
      if strEqb (localName p) (str "option") then [mkElement p cs]
      else if strEqb (localName p) (str "select")
              || strEqb (localName p) (str "hr")
              || strEqb (localName p) (str "datalist")
      then []
      else if strEqb (localName p) (str "optgroup")
      then if inOptgroup then [] else flat_map (optionsBelow true) cs
      else flat_map (optionsBelow inOptgroup) cs
  end.

Definition options (e : element) : list element :=
  flat_map (optionsBelow false) (childNodes e).

(** ** Records *)

Record ElementRecord : Type := mkRecord {
  element_type : jsString;
  text_content : jsString;
  selector_type : jsString;
  selector_value : jsString
}.

Record identifier : Type := mkIdentifier {
  ident_type : jsString;
  ident_value : jsString
}.

(** ** The two helpers *)

Definition getElementIdentifier (e : element) : identifier :=
  if truthy (elemId e) then
    mkIdentifier (str "id") (elemId e)
  else
    match className e with
    | ClassString c =>
        if truthy c && negb (strEqb (trim c) []) then
          mkIdentifier (str "class") (trim c)
        else
          mkIdentifier (str "none") (str "no-id-or-class")
    | ClassObject =>
        mkIdentifier (str "none") (str "no-id-or-class")
    end.

Section Extraction.

Variable h : host.
Variable d : document.

(** [document.querySelector(`label[for="${id}"]`)] *)
Definition querySelectorLabel (id : jsString) : completion (option element) :=
  if cssStringSafe id then Normal (firstLabelFor d id)
  else hostQuerySelector h d (labelSelector id).

Definition getElementText (e : element) : completion jsString :=
  if strEqb (tagName e) (str "INPUT") then
    if strEqb (elemType e) (str "button") || strEqb (elemType e) (str "submit")
    then
      Normal (orElse (elemValue e)
                (orElse (placeholder e)
                   (str "[" ++ elemType e ++ str " button]")))
    else if strEqb (elemType e) (str "checkbox")
            || strEqb (elemType e) (str "radio")
    then
      let* label := querySelectorLabel (elemId e) in
      Normal (match label with
              | Some l => trim (textContent l)
              | None => str "[" ++ elemType e ++ str "]"
              end)
    else
      Normal (orElse (placeholder e) (str "[" ++ elemType e ++ str " input]"))
  else if strEqb (tagName e) (str "SELECT") then
    let* label := querySelectorLabel (elemId e) in
    Normal (match label with
            | Some l => trim (textContent l)
            | None =>
                truncate100
                  (join (str ", ")
                     (map (fun opt => trim (textContent opt)) (options e)))
            end)
  else if strEqb (tagName e) (str "BUTTON") then
    Normal (orElse (trim (textContent e)) (str "[button]"))
  else if strEqb (tagName e) (str "A") then
    Normal (orElse (trim (textContent e)) (str "[link]"))
  else
    Normal (truncate100 (trim (textContent e))).

(** ** The collection passes

    The body of each [forEach] callback, as the record it pushes (if any),
    and [forEach] itself threading [elementsData]. *)

Fixpoint forEach (body : element -> completion (option ElementRecord))
    (els : list element) (elementsData : list ElementRecord)
  : completion unit * list ElementRecord :=
  match els with
  | [] => (Normal tt, elementsData)
  | e :: rest =>
      match body e with
      | Throw x => (Throw x, elementsData)
      | Normal None => forEach body rest elementsData
      | Normal (Some r) => forEach body rest (elementsData ++ [r])
      end
  end.

(** [`[type="${t}"]`] *)
Definition typeSuffix (t : jsString) : jsString :=
  str "[type=" ++ [dquote] ++ t ++ [dquote] ++ str "]".

Definition pushIf (text : jsString) (r : ElementRecord)
  : option ElementRecord :=
  if truthy text then Some r else None.

Definition buttonsSelector : list selector :=
  [Tag (str "button"); TagType (str "input") (str "button");
   TagType (str "input") (str "submit")].

Definition buttonBody (button : element) : completion (option ElementRecord) :=
  let identifier := getElementIdentifier button in
  let* text := getElementText button in
  Normal (pushIf text
    (mkRecord
       (toLowerCase h (tagName button)
          ++ (if truthy (elemType button) then typeSuffix (elemType button)
              else []))
       text (ident_type identifier) (ident_value identifier))).

Definition inputsSelector : list selector :=
  [TagType (str "input") (str "text"); TagType (str "input") (str "password");
   TagType (str "input") (str "email"); TagType (str "input") (str "number");
   TagType (str "input") (str "search"); TagType (str "input") (str "tel");
   TagType (str "input") (str "url"); Tag (str "textarea")].

Definition inputBody (input : element) : completion (option ElementRecord) :=
  let identifier := getElementIdentifier input in
  let* label := querySelectorLabel (elemId input) in
  let* text := match label with
               | Some l => Normal (trim (textContent l))
               | None => getElementText input
               end in
  Normal (pushIf text
    (mkRecord
       (toLowerCase h (tagName input)
          ++ (if truthy (elemType input) then typeSuffix (elemType input)
              else []))
       text (ident_type identifier) (ident_value identifier))).

Definition checkboxesAndRadiosSelector : list selector :=
  [TagType (str "input") (str "checkbox"); TagType (str "input") (str "radio")].

Definition checkboxBody (input : element) : completion (option ElementRecord) :=
  let identifier := getElementIdentifier input in
  let* label := querySelectorLabel (elemId input) in
  let* text := match label with
               | Some l => Normal (trim (textContent l))
               | None => getElementText input
               end in
  Normal (pushIf text
    (mkRecord
       (toLowerCase h (tagName input) ++ typeSuffix (elemType input))
       text (ident_type identifier) (ident_value identifier))).

Definition selectBody (select : element) : completion (option ElementRecord) :=
  let identifier := getElementIdentifier select in
  let* text := getElementText select in
  Normal (pushIf text
    (mkRecord (str "select") text
       (ident_type identifier) (ident_value identifier))).

Definition linkBody (link : element) : completion (option ElementRecord) :=
  let identifier := getElementIdentifier link in
  let* text := getElementText link in
  Normal
    (if truthy text && negb (strEqb text (str "[link]")) then
       Some (mkRecord (str "a") text
               (ident_type identifier) (ident_value identifier))
     else None).

Definition headingsSelector : list selector :=
  [Tag (str "h1"); Tag (str "h2"); Tag (str "h3");
   Tag (str "h4"); Tag (str "h5"); Tag (str "h6")].

Definition headingBody (heading : element) : completion (option ElementRecord) :=
  let identifier := getElementIdentifier heading in
  let text := trim (textContent heading) in
  Normal (pushIf text
    (mkRecord (toLowerCase h (tagName heading)) text
       (ident_type identifier) (ident_value identifier))).

Definition staticTextsSelector : list selector :=
  [Tag (str "p"); Tag (str "span"); Tag (str "div"); Tag (str "label")].

Definition importantSelector : list selector :=
  [Tag (str "button"); Tag (str "input"); Tag (str "select"); Tag (str "a");
   Tag (str "h1"); Tag (str "h2"); Tag (str "h3");
   Tag (str "h4"); Tag (str "h5"); Tag (str "h6")].

(** [node.nodeType === Node.TEXT_NODE && node.textContent.trim() !== ''] *)
Definition isNonBlankText (n : node) : bool :=
  match n with
  | TextNode data => negb (strEqb (trim data) [])
  | _ => false
  end.

Definition hasDirectText (e : element) : bool :=
  existsb isNonBlankText (childNodes e).

Definition containsImportantElements (e : element) : bool :=
  Nat.ltb 0 (length (querySelectorAll (childNodes e) importantSelector)).

Definition staticTextBody (e : element) : completion (option ElementRecord) :=
  Normal
    (if hasDirectText e then
       let identifier := getElementIdentifier e in
       let text := trim (textContent e) in
       if truthy text && Nat.ltb 0 (length text) && Nat.ltb (length text) 200
       then
         if negb (containsImportantElements e) then
           Some (mkRecord (toLowerCase h (tagName e)) text
                   (ident_type identifier) (ident_value identifier))
         else None
       else None
     else None).

Definition tableHeaderBody (th : element) : completion (option ElementRecord) :=
  let identifier := getElementIdentifier th in
  let text := trim (textContent th) in
  Normal (pushIf text
    (mkRecord (str "th") text
       (ident_type identifier) (ident_value identifier))).

(** The eight passes in the script's order; a pass that ends abruptly ends
    the run, keeping what was pushed so far. *)
Definition passes
  : list ((element -> completion (option ElementRecord)) * list selector) :=
  [(buttonBody, buttonsSelector);
   (inputBody, inputsSelector);
   (checkboxBody, checkboxesAndRadiosSelector);
   (selectBody, [Tag (str "select")]);
   (linkBody, [Tag (str "a")]);
   (headingBody, headingsSelector);
   (staticTextBody, staticTextsSelector);
   (tableHeaderBody, [Tag (str "th")])].

Fixpoint runPasses
    (ps : list ((element -> completion (option ElementRecord)) * list selector))
    (elementsData : list ElementRecord)
  : completion unit * list ElementRecord :=
  match ps with
  | [] => (Normal tt, elementsData)
  | (body, sel) :: rest =>
      match forEach body (querySelectorAll (docChildren d) sel) elementsData with
      | (Normal _, elementsData') => runPasses rest elementsData'
      | (Throw x, elementsData') => (Throw x, elementsData')
      end
  end.

(** [elementsData] when the last pass is over (or when one threw). *)
Definition collect : completion unit * list ElementRecord :=
  runPasses passes [].

End Extraction.

(** ** Filtering and serialization *)

(** [elementsData.filter(item => item.selector_type !== 'none')] *)
Definition validElementsData (elementsData : list ElementRecord)
  : list ElementRecord :=
  filter (fun item => negb (strEqb (selector_type item) (str "none")))
    elementsData.

(** The global replace of every double-quote by two of them. *)
Definition escapeQuotes (s : jsString) : jsString :=
  flat_map (fun c => if N.eqb c dquote then [dquote; dquote] else [c]) s.

(** A field between double-quotes, its own double-quotes doubled. *)
Definition quoted (s : jsString) : jsString :=
  [dquote] ++ escapeQuotes s ++ [dquote].

Definition comma : N := 44.

Definition csvRow (item : ElementRecord) : jsString :=
  quoted (element_type item) ++ [comma]
  ++ quoted (text_content item) ++ [comma]
  ++ quoted (selector_type item) ++ [comma]
  ++ quoted (selector_value item) ++ [newline].

Definition csvHeader : jsString :=
  str "Element Type,Text Content,Selector Type,Selector Value" ++ [newline].

(** The [csv += ...] loop over [validElementsData]. *)
Definition csv (valid : list ElementRecord) : jsString :=
  fold_left (fun acc item => acc ++ csvRow item) valid csvHeader.

(** ** The download and the return value *)

Definition isAsciiAlnum (c : N) : bool :=
  (N.leb 48 c && N.leb c 57) || (N.leb 65 c && N.leb c 90)
  || (N.leb 97 c && N.leb c 122).

(** [t.replace(/[^a-z0-9]/gi, '_')] *)
Definition sanitizeTitle (t : jsString) : jsString :=
  map (fun c => if isAsciiAlnum c then c else 95%N) t.

Definition pageTitle (h : host) (d : document) : jsString :=
  orElse (toLowerCase h (sanitizeTitle (title d))) (str "webpage").

(** [isoNow] is what [new Date().toISOString()] returned. *)
Definition filename (h : host) (isoNow : jsString) (d : document) : jsString :=
  pageTitle h d ++ str "_elements_" ++ firstn 10 isoNow ++ str ".csv".

Definition isElementNode (n : node) : bool :=
  match n with ElementNode _ => true | _ => false end.

Definition isBodyNode (n : node) : bool :=
  match n with
  | ElementNode e =>
      strEqb (localName e) (str "body") || strEqb (localName e) (str "frameset")
  | _ => false
  end.

(** [document.body]: the first [body] or [frameset] child of the [html]
    document element, or null. *)
Definition body (d : document) : option element :=
  match find isElementNode (docChildren d) with
  | Some (ElementNode html) =>
      if strEqb (localName html) (str "html") then
        match find isBodyNode (childNodes html) with
        | Some (ElementNode b) => Some b
        | _ => None
        end
      else None
  | _ => None
  end.

(** Rewrite the first element of a list that satisfies [p]. *)
Fixpoint updateFirst {A : Type} (p : A -> bool) (f : A -> A) (l : list A)
  : list A :=
  match l with
  | [] => []
  | x :: rest => if p x then f x :: rest else x :: updateFirst p f rest
  end.

Definition onChildren (f : list node -> list node) (n : node) : node :=
  match n with
  | ElementNode (mkElement p cs) => ElementNode (mkElement p (f cs))
  | _ => n
  end.

(** The document with the child list of [document.body] rewritten by [f]. *)
Definition withBodyChildren (f : list node -> list node) (d : document)
  : document :=
  mkDocument (title d)
    (updateFirst isElementNode
       (onChildren (updateFirst isBodyNode (onChildren f)))
       (docChildren d)).

(** The [a] element made by [document.createElement('a')]; its [href],
    [download] and [style] are not among the modelled properties. *)
Definition linkElement : node :=
  ElementNode
    (mkElement
       (mkProps (str "a") (str "A") [] (ClassString []) [] [] [] None None)
       []).

Definition appendChild (child : node) (d : document) : document :=
  withBodyChildren (fun cs => cs ++ [child]) d.

(** [document.body.removeChild(link)], [link] being the last child. *)
Definition removeLastChild (d : document) : document :=
  withBodyChildren (@removelast node) d.

Record outcome : Type := mkOutcome {
  returned : list ElementRecord;
  downloadName : jsString;
  downloadContent : jsString;
  consoleLog : list jsString;
  documentAfter : document
}.

Definition extractImportantElements (h : host) (isoNow : jsString)
    (d : document) : completion outcome :=
  match collect h d with
  | (Throw x, _) => Throw x
  | (Normal _, elementsData) =>
      let valid := validElementsData elementsData in
      let content := csv valid in
      let name := filename h isoNow d in
      match body d with
      | None => Throw TypeError
      | Some _ =>
          let d1 := appendChild linkElement d in
          let d2 := removeLastChild d1 in
          Normal
            (mkOutcome elementsData name content
               [str "Extracted "
                  ++ numberToString (Z.of_nat (length valid))
                  ++ str " elements with ID or class and downloaded as "
                  ++ name;
                str "(Skipped "
                  ++ numberToString
                       (Z.of_nat (length elementsData)
                        - Z.of_nat (length valid))
                  ++ str " elements that had no ID or class)"]
               d2)
      end
  end.

(** ** A host for running examples: ASCII lower-casing, and a query with an
    id outside the verbatim fragment is refused. *)
Definition exampleHost : host :=
  mkHost asciiLower (fun _ _ => Throw SyntaxError).

(** An HTML element with the given local name, id and class. *)
Definition htmlElement (name id cls : jsString) (cs : list node) : element :=
  mkElement
    (mkProps (asciiLower name)
       (map (fun c => if N.leb 97 c && N.leb c 122 then (c - 32)%N else c) name)
       id (ClassString cls) [] [] [] None None)
    cs.

(** [<input type=t id=.. class=.. placeholder=..>] *)
Definition inputElement (t id cls ph : jsString) : element :=
  mkElement
    (mkProps (str "input") (str "INPUT") id (ClassString cls) t [] ph
       (Some t) None)
    [].

Definition labelElement (for_ : jsString) (cs : list node) : element :=
  mkElement
    (mkProps (str "label") (str "LABEL") [] (ClassString []) [] [] []
       None (Some for_))
    cs.

(** [<html><body>..</body></html>] *)
Definition page (ttl : jsString) (cs : list node) : document :=
  mkDocument ttl
    [ElementNode
       (htmlElement (str "html") [] []
          [ElementNode (htmlElement (str "body") [] [] cs)])].

(** ** The CSV text as the specification words it

    The header line, then one line per record that survives the filter:
    the four fields, each between double-quotes with its own double-quotes
    doubled, separated by commas; every line ends in a newline. *)

Fixpoint doubleQuotes (s : jsString) : jsString :=
  match s with
  | [] => []
  | c :: s' =>
      if N.eqb c dquote then dquote :: dquote :: doubleQuotes s'
      else c :: doubleQuotes s'
  end.

Definition specField (s : jsString) : jsString :=
  dquote :: doubleQuotes s ++ [dquote].

Definition specLine (fields : list jsString) : jsString :=
  join [comma] fields ++ [newline].

Definition specRow (r : ElementRecord) : jsString :=
  specLine (map specField
              [element_type r; text_content r;
               selector_type r; selector_value r]).

Definition survives (r : ElementRecord) : bool :=
  negb (strEqb (selector_type r) (str "none")).

Definition specCsv (elementsData : list ElementRecord) : jsString :=
  specLine [str "Element Type"; str "Text Content";
            str "Selector Type"; str "Selector Value"]
  ++ concat (map specRow (filter survives elementsData)).

(** ** Reading a row back

    A reader for one quoted field and for one row, used to show that a row
    determines its record. *)

Definition consFst (c : N) (r : option (jsString * jsString))
  : option (jsString * jsString) :=
  match r with
  | Some (f, rest) => Some (c :: f, rest)
  | None => None
  end.

(** The field after its opening quote, and what follows its closing one. *)
Fixpoint readQuoted (s : jsString) : option (jsString * jsString) :=
  match s with
  | [] => None
  | c :: s' =>
      if N.eqb c dquote then
        match s' with
        | c2 :: s'' =>
            if N.eqb c2 dquote then consFst dquote (readQuoted s'')
            else Some ([], s')
        | [] => Some ([], [])
        end
      else consFst c (readQuoted s')
  end.

Definition readField (s : jsString) : option (jsString * jsString) :=
  match s with
  | c :: s' => if N.eqb c dquote then readQuoted s' else None
  | [] => None
  end.

Definition expect (c : N) (s : jsString) : option jsString :=
  match s with
  | x :: s' => if N.eqb x c then Some s' else None
  | [] => None
  end.

Definition readRow (s : jsString) : option ElementRecord :=
  match readField s with
  | Some (f1, s1) =>
    match expect comma s1 with
    | Some s1' =>
      match readField s1' with
      | Some (f2, s2) =>
        match expect comma s2 with
        | Some s2' =>
          match readField s2' with
          | Some (f3, s3) =>
            match expect comma s3 with
            | Some s3' =>
              match readField s3' with
              | Some (f4, s4) =>
                  match s4 with
                  | [c] => if N.eqb c newline then Some (mkRecord f1 f2 f3 f4)
                           else None
                  | _ => None
                  end
              | None => None
              end
            | None => None
            end
          | None => None
          end
        | None => None
        end
      | None => None
      end
    | None => None
    end
  | None => None
  end.

(** ** Predicates used in the statements *)

Definition nonEmptyText (r : ElementRecord) : Prop := text_content r <> [].

Definition skippedLine (n : Z) : jsString :=
  str "(Skipped " ++ numberToString n
  ++ str " elements that had no ID or class)".

Definition extractedLine (n : Z) (name : jsString) : jsString :=
  str "Extracted " ++ numberToString n
  ++ str " elements with ID or class and downloaded as " ++ name.

(** The local names the generic-text pass treats as already captured. *)
Definition importantNames : list jsString :=
  map str ["button"; "input"; "select"; "a";
           "h1"; "h2"; "h3"; "h4"; "h5"; "h6"]%string.

(** The three admission conditions of the generic-text pass:
    a direct Text child that is not blank, a trimmed text that is not
    empty and shorter than 200, no descendant with an important name. *)
Definition hasNonBlankTextChild (e : element) : Prop :=
  exists data, In (TextNode data) (childNodes e) /\ trim data <> [].

Definition ownTextUnder200 (e : element) : Prop :=
  trim (textContent e) <> [] /\ length (trim (textContent e)) < 200.

Definition noImportantDescendant (e : element) : Prop :=
  forall x, In x (elementsOf (childNodes e)) ->
            ~ In (localName x) importantNames.

Definition eligible (e : element) : Prop :=
  hasNonBlankTextChild e /\ ownTextUnder200 e /\ noImportantDescendant e.

(** The types the form-inputs pass selects [input] elements by. *)
Definition textInputTypes : list jsString :=
  map str ["text"; "password"; "email"; "number"; "search"; "tel"; "url"]%string.

Definition isNoneRecord (r : ElementRecord) : bool :=
  strEqb (selector_type r) (str "none").

(** ** Example pages *)

Definition exampleNow : jsString := str "2024-01-02T03:04:05.000Z".

Definition submitButton : element :=
  mkElement
    (mkProps (str "button") (str "BUTTON") (str "submit-btn") (ClassString [])
       (str "submit") [] [] None None)
    [TextNode (str "Submit")].

(** A button with an id, a checkbox with its label, and a paragraph in a
    card; the label and the paragraph have neither id nor class. *)
Definition examplePage : document :=
  page (str "My Page!")
    [ElementNode submitButton;
     ElementNode (inputElement (str "checkbox") (str "agree") [] []);
     ElementNode (labelElement (str "agree") [TextNode (str "I agree")]);
     ElementNode
       (htmlElement (str "div") [] (str "card")
          [ElementNode
             (htmlElement (str "p") [] []
                [TextNode (str "Hello ");
                 ElementNode
                   (htmlElement (str "b") [] [] [TextNode (str "World")])])])].

Definition outcomeOr (dflt : outcome) (c : completion outcome) : outcome :=
  match c with
  | Normal out => out
  | Throw _ => dflt
  end.

(** What a run on [examplePage] returns. *)
Definition exampleOutcome : outcome :=
  Eval vm_compute in
    outcomeOr (mkOutcome [] [] [] [] examplePage)
      (extractImportantElements exampleHost exampleNow examplePage).

Definition helloRecord : ElementRecord :=
  mkRecord (str "p") (str "Hello World") (str "none") (str "no-id-or-class").

(** A paragraph of 150 letters, with an id. *)
Definition longParagraph : element :=
  htmlElement (str "p") (str "x") [] [TextNode (repeat 97%N 150)].

Definition longParagraphRecord : ElementRecord :=
  mkRecord (str "p") (repeat 97%N 150) (str "id") (str "x").

Definition longParagraphPage : document :=
  page (str "Long") [ElementNode longParagraph].

(** A select with two long options and no label. *)
Definition longSelect : element :=
  mkElement
    (mkProps (str "select") (str "SELECT") (str "country") (ClassString [])
       (str "select-one") [] [] None None)
    [ElementNode (htmlElement (str "option") [] [] [TextNode (repeat 98%N 60)]);
     ElementNode (htmlElement (str "option") [] [] [TextNode (repeat 99%N 60)])].

Definition longSelectPage : document :=
  page (str "Countries") [ElementNode longSelect].

(** A text input with a placeholder and an associated label. *)
Definition userInput : element :=
  inputElement (str "text") (str "u") [] (str "Name").

Definition labelledInputPage : document :=
  page (str "Login")
    [ElementNode userInput;
     ElementNode (labelElement (str "u") [TextNode (str "User")])].

(** A text input with a placeholder and no label. *)
Definition plainInputPage : document :=
  page (str "Login") [ElementNode userInput].

(** A checkbox without an id, next to a label whose [for] is empty. *)
Definition anonymousCheckbox : element :=
  inputElement (str "checkbox") [] (str "c") [].

Definition emptyForPage : document :=
  page (str "Form")
    [ElementNode anonymousCheckbox;
     ElementNode (labelElement [] [TextNode (str " Foo ")])].

(** A checkbox with an id and no label anywhere. *)
Definition loneCheckbox : element :=
  inputElement (str "checkbox") (str "agree") [] [].

Definition loneCheckboxPage : document :=
  page (str "Form") [ElementNode loneCheckbox].

(** ** Further definitions used in the statements *)

(** The records a [forEach] pushes when no callback ends abruptly. *)
Definition pushedBy (body : element -> completion (option ElementRecord))
    (els : list element) : list ElementRecord :=
  flat_map (fun e => match body e with
                     | Normal (Some r) => [r]
                     | _ => []
                     end) els.

(** The selector fields of [r] are the identifier of [e]. *)
Definition selectorFieldsOf (e : element) (r : ElementRecord) : Prop :=
  selector_type r = ident_type (getElementIdentifier e)
  /\ selector_value r = ident_value (getElementIdentifier e).

(** A string with no white space at either end. *)
Definition noOuterWhiteSpace (s : jsString) : Prop :=
  (forall c, hd_error s = Some c -> isWhiteSpace c = false)
  /\ (forall c, hd_error (rev s) = Some c -> isWhiteSpace c = false).

(** One row read off the front of a text, with what follows it. *)
Definition readRecord (s : jsString) : option (ElementRecord * jsString) :=
  match readField s with
  | Some (f1, s1) =>
    match expect comma s1 with
    | Some s1' =>
      match readField s1' with
      | Some (f2, s2) =>
        match expect comma s2 with
        | Some s2' =>
          match readField s2' with
          | Some (f3, s3) =>
            match expect comma s3 with
            | Some s3' =>
              match readField s3' with
              | Some (f4, s4) =>
                  match expect newline s4 with
                  | Some rest => Some (mkRecord f1 f2 f3 f4, rest)
                  | None => None
                  end
              | None => None
              end
            | None => None
            end
          | None => None
          end
        | None => None
        end
      | None => None
      end
    | None => None
    end
  | None => None
  end.

Fixpoint readRecords (fuel : nat) (s : jsString)
  : option (list ElementRecord) :=
  match s with
  | [] => Some []
  | _ :: _ =>
      match fuel with
      | 0 => None
      | S fuel' =>
          match readRecord s with
          | Some (r, rest) =>
              match readRecords fuel' rest with
              | Some rs => Some (r :: rs)
              | None => None
              end
          | None => None
          end
      end
  end.

Fixpoint stripPrefix (p s : jsString) : option jsString :=
  match p, s with
  | [], _ => Some s
  | x :: p', y :: s' => if N.eqb x y then stripPrefix p' s' else None
  | _ :: _, [] => None
  end.

(** A reader for the whole file: the header, then rows to the end. *)
Definition readCsv (s : jsString) : option (list ElementRecord) :=
  match stripPrefix csvHeader s with
  | Some rows => readRecords (length rows) rows
  | None => None
  end.

(** A host whose [toLowerCase] does on ASCII text what the language
    prescribes there: upper-case letters to lower-case, the rest kept. *)
Definition lowersAscii (h : host) : Prop :=
  forall s, Forall (fun c => (c < 128)%N) s -> toLowerCase h s = asciiLower s.

Definition isFileNameUnit (c : N) : bool :=
  (N.leb 48 c && N.leb c 57) || (N.leb 97 c && N.leb c 122) || N.eqb c 95.

(** A link whose text is the literal fallback. *)
Definition fallbackLink : element :=
  mkElement
    (mkProps (str "a") (str "A") (str "home") (ClassString []) [] [] []
       None None)
    [TextNode (str " [link] ")].

(** A select with an id, no option, and a label of 120 letters. *)
Definition labelledSelect : element :=
  mkElement
    (mkProps (str "select") (str "SELECT") (str "country") (ClassString [])
       (str "select-one") [] [] None None)
    [].

Definition labelledSelectPage : document :=
  page (str "Countries")
    [ElementNode (labelElement (str "country") [TextNode (repeat 100%N 120)]);
     ElementNode labelledSelect].

(** A textarea with a placeholder and no text. *)
Definition emptyTextarea : element :=
  mkElement
    (mkProps (str "textarea") (str "TEXTAREA") (str "notes") (ClassString [])
       (str "textarea") [] (str "Type here") None None)
    [].

Definition textareaPage : document :=
  page (str "Notes") [ElementNode emptyTextarea].

(** A text input whose id holds a line feed. *)
Definition newlineIdInput : element :=
  inputElement (str "text") [97%N; newline; 98%N] [] [].

Definition newlineIdPage : document :=
  page (str "Form") [ElementNode submitButton; ElementNode newlineIdInput].

(** A select with an id, no label and nothing inside. *)
Definition emptySelect : element :=
  mkElement
    (mkProps (str "select") (str "SELECT") (str "empty") (ClassString [])
       (str "select-one") [] [] None None)
    [].

Definition emptySelectPage : document :=
  page (str "Form") [ElementNode emptySelect].

(** A select with one option inside a [div] and one directly below it. *)
Definition nestedOptionSelect : element :=
  mkElement
    (mkProps (str "select") (str "SELECT") (str "pick") (ClassString [])
       (str "select-one") [] [] None None)
    [ElementNode
       (htmlElement (str "div") [] []
          [ElementNode
             (htmlElement (str "option") [] [] [TextNode (str "InDiv")])]);
     ElementNode (htmlElement (str "option") [] [] [TextNode (str "Plain")])].

Definition nestedOptionPage : document :=
  page (str "Form") [ElementNode nestedOptionSelect].

(** A select with a short option inside a [div] and a long one directly
    below it. *)
Definition nestedLongSelect : element :=
  mkElement
    (mkProps (str "select") (str "SELECT") (str "pick") (ClassString [])
       (str "select-one") [] [] None None)
    [ElementNode
       (htmlElement (str "div") [] []
          [ElementNode
             (htmlElement (str "option") [] [] [TextNode (str "InDiv")])]);
     ElementNode
       (htmlElement (str "option") [] [] [TextNode (repeat 99%N 150)])].

Definition nestedLongPage : document :=
  page (str "Form") [ElementNode nestedLongSelect].

(** ** Basic facts *)

Lemma strEqb_refl (a : jsString) : strEqb a a = true.
Proof.
  induction a as [|x a IH]; simpl; [reflexivity|].
  now rewrite N.eqb_refl, IH.
Qed.

Lemma strEqb_eq (a b : jsString) : strEqb a b = true <-> a = b.
Proof.
  split.
  - revert b; induction a as [|x a IH]; intros [|y b]; simpl; try discriminate.
    + reflexivity.
    + intros H. apply andb_true_iff in H as [Hx Hab].
      apply N.eqb_eq in Hx. now rewrite Hx, (IH b Hab).
  - intros ->. apply strEqb_refl.
Qed.

Lemma strEqb_neq (a b : jsString) : strEqb a b = false <-> a <> b.
Proof.
  rewrite <- strEqb_eq. destruct (strEqb a b); split; congruence.
Qed.

Lemma truthy_true (s : jsString) : truthy s = true <-> s <> [].
Proof. destruct s; simpl; split; congruence. Qed.

Lemma truthy_false (s : jsString) : truthy s = false <-> s = [].
Proof. destruct s; simpl; split; congruence. Qed.

Lemma orElse_nonempty (a b : jsString) : b <> [] -> orElse a b <> [].
Proof.
  unfold orElse. destruct (truthy a) eqn:E; [|tauto].
  intros _. now apply truthy_true.
Qed.

Lemma pushIf_some (text : jsString) (r r' : ElementRecord) :
  pushIf text r = Some r' -> r' = r /\ text <> [].
Proof.
  unfold pushIf. destruct (truthy text) eqn:E; [|discriminate].
  intros [= <-]. split; [reflexivity | now apply truthy_true].
Qed.

(** ** [forEach] only appends *)

Lemma forEach_appends (body : element -> completion (option ElementRecord))
    (els : list element) (data : list ElementRecord) :
  exists pushed,
    snd (forEach body els data) = data ++ pushed
    /\ forall r, In r pushed ->
         exists e, In e els /\ body e = Normal (Some r).
Proof.
  revert data; induction els as [|e els IH]; intros data; simpl.
  - exists []. split; [now rewrite app_nil_r | intros r []].
  - destruct (body e) as [[r|]|x] eqn:E.
    + destruct (IH (data ++ [r])) as (pushed & Hd & Hp).
      exists (r :: pushed). split.
      * now rewrite Hd, <- app_assoc.
      * intros r' [<-|Hin]; [now exists e; auto|].
        destruct (Hp r' Hin) as (e' & He' & Hb). exists e'; auto.
    + destruct (IH data) as (pushed & Hd & Hp).
      exists pushed. split; [assumption|].
      intros r' Hin. destruct (Hp r' Hin) as (e' & He' & Hb). exists e'; auto.
    + exists []. split; [now rewrite app_nil_r | intros r []].
Qed.

Lemma forEach_Forall (P : ElementRecord -> Prop)
    (body : element -> completion (option ElementRecord))
    (els : list element) (data : list ElementRecord) :
  (forall e r, body e = Normal (Some r) -> P r) ->
  Forall P data -> Forall P (snd (forEach body els data)).
Proof.
  intros Hbody Hdata.
  destruct (forEach_appends body els data) as (pushed & -> & Hp).
  apply Forall_app; split; [assumption|].
  apply Forall_forall. intros r Hin.
  destruct (Hp r Hin) as (e & _ & Hb). eauto.
Qed.

(** ** Serialization lemmas *)

Lemma fold_left_append (A : Type) (f : A -> jsString) (l : list A)
    (acc : jsString) :
  fold_left (fun a x => a ++ f x) l acc = acc ++ concat (map f l).
Proof.
  revert acc; induction l as [|x l IH]; intros acc; simpl.
  - now rewrite app_nil_r.
  - now rewrite IH, <- app_assoc.
Qed.

Lemma csv_closed_form (valid : list ElementRecord) :
  csv valid = csvHeader ++ concat (map csvRow valid).
Proof. unfold csv. apply fold_left_append. Qed.

Lemma doubleQuotes_escapeQuotes (s : jsString) :
  doubleQuotes s = escapeQuotes s.
Proof.
  induction s as [|c s IH]; simpl; [reflexivity|].
  rewrite IH. now destruct (N.eqb c dquote).
Qed.

Lemma specField_quoted (s : jsString) : specField s = quoted s.
Proof. unfold specField, quoted. now rewrite doubleQuotes_escapeQuotes. Qed.

Lemma specRow_csvRow (r : ElementRecord) : specRow r = csvRow r.
Proof.
  unfold specRow, specLine, csvRow. cbn [map join].
  rewrite !specField_quoted, <- !app_assoc. reflexivity.
Qed.

Lemma readQuoted_doubled (s : jsString) :
  readQuoted (dquote :: dquote :: s) = consFst dquote (readQuoted s).
Proof. reflexivity. Qed.

Lemma readQuoted_plain (c : N) (s : jsString) :
  N.eqb c dquote = false -> readQuoted (c :: s) = consFst c (readQuoted s).
Proof. intros E. simpl. now rewrite E. Qed.

Lemma escapeQuotes_cons (c : N) (s : jsString) :
  escapeQuotes (c :: s)
  = (if N.eqb c dquote then [dquote; dquote] else [c]) ++ escapeQuotes s.
Proof. reflexivity. Qed.

Lemma readQuoted_escape (s rest : jsString) :
  hd_error rest <> Some dquote ->
  readQuoted (escapeQuotes s ++ dquote :: rest) = Some (s, rest).
Proof.
  intros Hrest. induction s as [|c s IH].
  - simpl. destruct rest as [|c2 rest]; [reflexivity|].
    destruct (N.eqb c2 dquote) eqn:E; [|reflexivity].
    apply N.eqb_eq in E. subst c2. now elim Hrest.
  - rewrite escapeQuotes_cons. destruct (N.eqb c dquote) eqn:E.
    + apply N.eqb_eq in E. subst c. cbn [app].
      now rewrite readQuoted_doubled, IH.
    + cbn [app]. now rewrite (@readQuoted_plain c _ E), IH.
Qed.

Lemma readField_quoted (s rest : jsString) :
  hd_error rest <> Some dquote ->
  readField (quoted s ++ rest) = Some (s, rest).
Proof.
  intros Hrest. unfold quoted. simpl.
  rewrite <- app_assoc. simpl. now apply readQuoted_escape.
Qed.

Lemma expect_comma (s : jsString) : expect comma ([comma] ++ s) = Some s.
Proof. reflexivity. Qed.

Lemma readRow_csvRow (r : ElementRecord) : readRow (csvRow r) = Some r.
Proof.
  destruct r as [f1 f2 f3 f4]. unfold csvRow, readRow.
  cbn [element_type text_content selector_type selector_value].
  rewrite readField_quoted, expect_comma by (cbn; discriminate).
  rewrite readField_quoted, expect_comma by (cbn; discriminate).
  rewrite readField_quoted, expect_comma by (cbn; discriminate).
  rewrite readField_quoted by (cbn; discriminate).
  reflexivity.
Qed.

Lemma csvRow_injective (r r' : ElementRecord) :
  csvRow r = csvRow r' -> r = r'.
Proof.
  intros H. assert (E : readRow (csvRow r) = readRow (csvRow r')) by now rewrite H.
  rewrite !readRow_csvRow in E. now injection E.
Qed.

Lemma validElementsData_In (data : list ElementRecord) (r : ElementRecord) :
  In r (validElementsData data)
  <-> In r data /\ selector_type r <> str "none".
Proof.
  unfold validElementsData. rewrite filter_In.
  rewrite negb_true_iff, strEqb_neq. tauto.
Qed.

(** ** Identifier resolution *)

Lemma trim_nil : trim [] = [].
Proof. reflexivity. Qed.

(** C1.  A non-empty id gives the selector (id, that id), whatever the
    class; without an id, a class that is a string with a non-empty trimmed
    form gives (class, the trimmed class); in every other case the selector
    is (none, no-id-or-class).  The function is total: its result is an
    identifier, never an abrupt completion. *)
Theorem getElementIdentifier_resolution (e : element) :
  (elemId e <> [] ->
     getElementIdentifier e = mkIdentifier (str "id") (elemId e))
  /\ (elemId e = [] ->
      forall c, className e = ClassString c -> trim c <> [] ->
        getElementIdentifier e = mkIdentifier (str "class") (trim c))
  /\ (elemId e = [] ->
      (forall c, className e = ClassString c -> trim c = []) ->
        getElementIdentifier e
        = mkIdentifier (str "none") (str "no-id-or-class")).
Proof.
  unfold getElementIdentifier. repeat split.
  - intros Hid. apply truthy_true in Hid. now rewrite Hid.
  - intros Hid c Hc Htrim. rewrite Hid, Hc. simpl truthy.
    assert (Hne : c <> []) by (intros ->; now apply Htrim).
    apply truthy_true in Hne. apply strEqb_neq in Htrim.
    now rewrite Hne, Htrim.
  - intros Hid Hcls. rewrite Hid. simpl truthy.
    destruct (className e) as [c|]; [|reflexivity].
    rewrite (Hcls c eq_refl), strEqb_refl. simpl.
    now rewrite andb_false_r.
Qed.

(** ** Every pass pushes a record with a non-empty text *)

Ltac pushed_text :=
  match goal with
  | H : Normal (pushIf _ _) = Normal (Some _) |- _ =>
      injection H as H; apply pushIf_some in H as [-> ?]; assumption
  end.

Lemma buttonBody_text (h : host) (d : document) (e : element) (r : ElementRecord) :
  buttonBody h d e = Normal (Some r) -> nonEmptyText r.
Proof.
  unfold buttonBody, nonEmptyText.
  destruct (getElementText h d e) as [text|x]; simpl; intros H;
    [pushed_text | discriminate].
Qed.

Lemma labelled_text (h : host) (d : document) (e : element) (mk : jsString -> ElementRecord) (r : ElementRecord) :
  (forall t, text_content (mk t) = t) ->
  (let* label := querySelectorLabel h d (elemId e) in
   let* text := match label with
                | Some l => Normal (trim (textContent l))
                | None => getElementText h d e
                end in
   Normal (pushIf text (mk text))) = Normal (Some r) ->
  nonEmptyText r.
Proof.
  intros Hmk. unfold nonEmptyText.
  destruct (querySelectorLabel h d (elemId e)) as [[l|]|x]; simpl;
    [| destruct (getElementText h d e) as [text|x]; simpl |];
    intros H; try discriminate;
    injection H as H; apply pushIf_some in H as [-> ?]; now rewrite Hmk.
Qed.

Lemma inputBody_text (h : host) (d : document) (e : element) (r : ElementRecord) :
  inputBody h d e = Normal (Some r) -> nonEmptyText r.
Proof.
  unfold inputBody.
  apply (@labelled_text h d e
           (fun text =>
              mkRecord
                (toLowerCase h (tagName e)
                   ++ (if truthy (elemType e) then typeSuffix (elemType e)
                       else []))
                text
                (ident_type (getElementIdentifier e))
                (ident_value (getElementIdentifier e)))).
  reflexivity.
Qed.

Lemma checkboxBody_text (h : host) (d : document) (e : element) (r : ElementRecord) :
  checkboxBody h d e = Normal (Some r) -> nonEmptyText r.
Proof.
  unfold checkboxBody.
  apply (@labelled_text h d e
           (fun text =>
              mkRecord
                (toLowerCase h (tagName e) ++ typeSuffix (elemType e))
                text
                (ident_type (getElementIdentifier e))
                (ident_value (getElementIdentifier e)))).
  reflexivity.
Qed.

Lemma selectBody_text (h : host) (d : document) (e : element) (r : ElementRecord) :
  selectBody h d e = Normal (Some r) -> nonEmptyText r.
Proof.
  unfold selectBody, nonEmptyText.
  destruct (getElementText h d e) as [text|x]; simpl; intros H;
    [pushed_text | discriminate].
Qed.

Lemma linkBody_text (h : host) (d : document) (e : element) (r : ElementRecord) :
  linkBody h d e = Normal (Some r) -> nonEmptyText r.
Proof.
  unfold linkBody, nonEmptyText.
  destruct (getElementText h d e) as [text|x]; simpl; [|discriminate].
  destruct (truthy text) eqn:E; simpl; [|discriminate].
  destruct (negb (strEqb text (str "[link]"))); [|discriminate].
  intros [= <-]. simpl. now apply truthy_true.
Qed.

Lemma headingBody_text (h : host) (e : element) (r : ElementRecord) :
  headingBody h e = Normal (Some r) -> nonEmptyText r.
Proof. unfold headingBody, nonEmptyText. intros H. pushed_text. Qed.

Lemma staticTextBody_text (h : host) (e : element) (r : ElementRecord) :
  staticTextBody h e = Normal (Some r) -> nonEmptyText r.
Proof.
  unfold staticTextBody, nonEmptyText.
  destruct (hasDirectText e); [|discriminate].
  destruct (truthy (trim (textContent e))) eqn:E; simpl; [|discriminate].
  destruct (_ && _); [|discriminate].
  destruct (negb _); [|discriminate].
  intros [= <-]. simpl. now apply truthy_true.
Qed.

Lemma tableHeaderBody_text (e : element) (r : ElementRecord) :
  tableHeaderBody e = Normal (Some r) -> nonEmptyText r.
Proof. unfold tableHeaderBody, nonEmptyText. intros H. pushed_text. Qed.

Lemma passes_text (h : host) (d : document) body sel (e : element)
    (r : ElementRecord) :
  In (body, sel) (passes h d) -> body e = Normal (Some r) -> nonEmptyText r.
Proof.
  unfold passes. simpl.
  intros [E|[E|[E|[E|[E|[E|[E|[E|[]]]]]]]]]; injection E as <- _;
    eauto using buttonBody_text, inputBody_text, checkboxBody_text,
      selectBody_text, linkBody_text, headingBody_text, staticTextBody_text,
      tableHeaderBody_text.
Qed.

Lemma runPasses_Forall (P : ElementRecord -> Prop) d ps data :
  (forall body sel e r,
     In (body, sel) ps -> body e = Normal (Some r) -> P r) ->
  Forall P data -> Forall P (snd (runPasses d ps data)).
Proof.
  revert data; induction ps as [|[body sel] ps IH]; intros data Hps Hdata.
  - exact Hdata.
  - simpl.
    pose proof (@forEach_Forall P body
                  (querySelectorAll (docChildren d) sel) data) as HF.
    destruct (forEach body (querySelectorAll (docChildren d) sel) data)
      as [[u|x] data'] eqn:E; simpl in HF.
    + apply IH.
      * intros b s e r Hin. apply (Hps b s). now right.
      * apply HF; [|assumption]. intros e r. apply (Hps body sel). now left.
    + simpl. apply HF; [|assumption].
      intros e r. apply (Hps body sel). now left.
Qed.

Lemma collect_nonEmptyText h d : Forall nonEmptyText (snd (collect h d)).
Proof.
  unfold collect. apply runPasses_Forall; [|constructor].
  intros body sel e r Hin. now apply (@passes_text h d body sel).
Qed.

(** ** The link is appended to the body and taken away again *)

Lemma updateFirst_compose (A : Type) (p : A -> bool) (f g : A -> A)
    (l : list A) :
  (forall x, p (f x) = p x) ->
  updateFirst p g (updateFirst p f l) = updateFirst p (fun x => g (f x)) l.
Proof.
  intros Hp. induction l as [|x l IH]; simpl; [reflexivity|].
  destruct (p x) eqn:E; simpl.
  - now rewrite Hp, E.
  - now rewrite E, IH.
Qed.

Lemma updateFirst_identity (A : Type) (p : A -> bool) (f : A -> A)
    (l : list A) :
  (forall x, f x = x) -> updateFirst p f l = l.
Proof.
  intros Hf. induction l as [|x l IH]; simpl; [reflexivity|].
  destruct (p x); [now rewrite Hf | now rewrite IH].
Qed.

Lemma updateFirst_ext (A : Type) (p : A -> bool) (f g : A -> A)
    (l : list A) :
  (forall x, f x = g x) -> updateFirst p f l = updateFirst p g l.
Proof.
  intros Hfg. induction l as [|x l IH]; simpl; [reflexivity|].
  destruct (p x); [now rewrite Hfg | now rewrite IH].
Qed.

Lemma onChildren_isElementNode (f : list node -> list node) (n : node) :
  isElementNode (onChildren f n) = isElementNode n.
Proof. destruct n as [t|t|[p cs]]; reflexivity. Qed.

Lemma onChildren_isBodyNode (f : list node -> list node) (n : node) :
  isBodyNode (onChildren f n) = isBodyNode n.
Proof. destruct n as [t|t|[p cs]]; reflexivity. Qed.

Lemma onChildren_compose (f g : list node -> list node) (n : node) :
  onChildren g (onChildren f n) = onChildren (fun cs => g (f cs)) n.
Proof. destruct n as [t|t|[p cs]]; reflexivity. Qed.

Lemma onChildren_identity (f : list node -> list node) (n : node) :
  (forall cs, f cs = cs) -> onChildren f n = n.
Proof. intros Hf. destruct n as [t|t|[p cs]]; simpl; now rewrite ?Hf. Qed.

Lemma removeLastChild_appendChild (child : node) (d : document) :
  removeLastChild (appendChild child d) = d.
Proof.
  destruct d as [ttl roots].
  unfold removeLastChild, appendChild, withBodyChildren. simpl. f_equal.
  rewrite updateFirst_compose by (intros; apply onChildren_isElementNode).
  apply updateFirst_identity. intros html.
  rewrite onChildren_compose. apply onChildren_identity. intros cs.
  rewrite updateFirst_compose by (intros; apply onChildren_isBodyNode).
  apply updateFirst_identity. intros b.
  rewrite onChildren_compose. apply onChildren_identity. intros bs.
  apply removelast_last.
Qed.

(** ** What a run that returns has done *)

Lemma extract_returned (h : host) (isoNow : jsString) (d : document)
    (out : outcome) :
  extractImportantElements h isoNow d = Normal out ->
  fst (collect h d) = Normal tt
  /\ body d <> None
  /\ returned out = snd (collect h d)
  /\ downloadName out = filename h isoNow d
  /\ downloadContent out = csv (validElementsData (returned out))
  /\ consoleLog out
     = [extractedLine
          (Z.of_nat (length (validElementsData (returned out))))
          (downloadName out);
        skippedLine
          (Z.of_nat (length (returned out))
           - Z.of_nat (length (validElementsData (returned out))))]
  /\ documentAfter out = d.
Proof.
  unfold extractImportantElements.
  destruct (collect h d) as [[[]|x] data]; [|discriminate].
  destruct (body d) as [b|]; [|discriminate].
  intros [= <-]. simpl.
  rewrite removeLastChild_appendChild.
  repeat split; discriminate.
Qed.

Lemma extract_of_collect (h : host) (isoNow : jsString) (d : document) :
  fst (collect h d) = Normal tt -> body d <> None ->
  exists out, extractImportantElements h isoNow d = Normal out.
Proof.
  unfold extractImportantElements.
  destruct (collect h d) as [[[]|x] data]; simpl; [|discriminate].
  intros _. destruct (body d) as [b|]; [|congruence].
  intros _. eexists. reflexivity.
Qed.

(** ** A label query with an id that needs no escaping *)

Lemma querySelectorLabel_safe (h : host) (d : document) (id : jsString) :
  cssStringSafe id = true ->
  querySelectorLabel h d id = Normal (firstLabelFor d id).
Proof. unfold querySelectorLabel. now intros ->. Qed.

(** ** Filtering and the CSV text *)

Lemma specHeader_csvHeader :
  specLine [str "Element Type"; str "Text Content";
            str "Selector Type"; str "Selector Value"] = csvHeader.
Proof. reflexivity. Qed.

Lemma csv_specCsv (elementsData : list ElementRecord) :
  csv (validElementsData elementsData) = specCsv elementsData.
Proof.
  rewrite csv_closed_form. unfold specCsv. rewrite specHeader_csvHeader.
  do 2 apply f_equal. unfold validElementsData.
  apply map_ext. intros r. symmetry. apply specRow_csvRow.
Qed.

Lemma filter_length_split (A : Type) (f : A -> bool) (l : list A) :
  length l = length (filter f l) + length (filter (fun x => negb (f x)) l).
Proof.
  induction l as [|x l IH]; simpl; [reflexivity|].
  destruct (f x); simpl; lia.
Qed.

(** C2.  The CSV of a run is the header followed by the rows of the
    records kept by the filter; none of those has selector type none, and a
    collected record whose selector type is none is neither among the kept
    records nor is its row among the rows written. *)
Theorem csv_rows_exclude_none (h : host) (isoNow : jsString) (d : document)
    (out : outcome) :
  extractImportantElements h isoNow d = Normal out ->
  let valid := validElementsData (returned out) in
  downloadContent out = csvHeader ++ concat (map csvRow valid)
  /\ (forall row, In row (map csvRow valid) ->
       exists r, row = csvRow r /\ In r (returned out)
                 /\ selector_type r <> str "none")
  /\ forall r, In r (returned out) -> selector_type r = str "none" ->
       ~ In r valid /\ ~ In (csvRow r) (map csvRow valid).
Proof.
  intros Hrun valid.
  destruct (extract_returned _ _ _ _ Hrun) as (_ & _ & _ & _ & Hcsv & _).
  split; [rewrite Hcsv; apply csv_closed_form|]. split.
  - intros row Hin. apply in_map_iff in Hin as (r & <- & Hin).
    apply validElementsData_In in Hin. exists r. tauto.
  - intros r _ Hnone. split.
    + intros Hin. apply validElementsData_In in Hin. tauto.
    + intros Hin. apply in_map_iff in Hin as (r' & Hrow & Hin').
      apply csvRow_injective in Hrow. subst r'.
      apply validElementsData_In in Hin'. tauto.
Qed.

Lemma csv_rows_exclude_none_witness :
  extractImportantElements exampleHost exampleNow examplePage
  = Normal exampleOutcome
  /\ In helloRecord (returned exampleOutcome)
  /\ ~ In (csvRow helloRecord)
         (map csvRow (validElementsData (returned exampleOutcome))).
Proof.
  split; [vm_compute; reflexivity|]. split; [vm_compute; tauto|].
  apply (@csv_rows_exclude_none exampleHost exampleNow examplePage
           exampleOutcome).
  - vm_compute; reflexivity.
  - vm_compute; tauto.
  - reflexivity.
Defined.

(** C4.  The text handed to the download is the header line followed by
    one line per record that survives the filter, in collection order: the
    four fields between double-quotes with their own double-quotes doubled,
    separated by commas, each line ended by a newline. *)
Theorem csv_serialization (h : host) (isoNow : jsString) (d : document)
    (out : outcome) :
  extractImportantElements h isoNow d = Normal out ->
  downloadContent out = specCsv (returned out).
Proof.
  intros Hrun.
  destruct (extract_returned _ _ _ _ Hrun) as (_ & _ & _ & _ & Hcsv & _).
  rewrite Hcsv. apply csv_specCsv.
Qed.

Lemma csv_serialization_witness :
  extractImportantElements exampleHost exampleNow examplePage
  = Normal exampleOutcome
  /\ downloadContent exampleOutcome = specCsv (returned exampleOutcome).
Proof.
  split; [vm_compute; reflexivity|].
  apply (@csv_serialization exampleHost exampleNow examplePage).
  vm_compute; reflexivity.
Defined.

(** C9.  A run that returns leaves the document as it found it, and a
    second run on it, at whatever date, returns as well, with the same CSV
    text and the same records; the two file names differ at most in the
    ten characters of the date. *)
Theorem extraction_idempotent (h : host) (now1 now2 : jsString)
    (d : document) (out1 : outcome) :
  extractImportantElements h now1 d = Normal out1 ->
  documentAfter out1 = d
  /\ exists out2,
       extractImportantElements h now2 (documentAfter out1) = Normal out2
       /\ downloadContent out2 = downloadContent out1
       /\ returned out2 = returned out1
       /\ documentAfter out2 = d
       /\ exists stem,
            downloadName out1 = stem ++ firstn 10 now1 ++ str ".csv"
            /\ downloadName out2 = stem ++ firstn 10 now2 ++ str ".csv".
Proof.
  intros Hrun.
  destruct (extract_returned _ _ _ _ Hrun)
    as (Hc & Hb & Hret & Hname & Hcsv & _ & Hdoc).
  split; [assumption|]. rewrite Hdoc.
  destruct (@extract_of_collect h now2 d Hc Hb) as (out2 & Hrun2).
  destruct (extract_returned _ _ _ _ Hrun2)
    as (_ & _ & Hret2 & Hname2 & Hcsv2 & _ & Hdoc2).
  exists out2. repeat split; try assumption.
  - now rewrite Hcsv2, Hcsv, Hret2, Hret.
  - now rewrite Hret2, Hret.
  - exists (pageTitle h d ++ str "_elements_").
    rewrite Hname, Hname2. unfold filename.
    now rewrite <- !app_assoc.
Qed.

Lemma extraction_idempotent_witness :
  extractImportantElements exampleHost exampleNow examplePage
  = Normal exampleOutcome
  /\ exists out2,
       extractImportantElements exampleHost (str "2031-12-31T23:59:59.999Z")
         (documentAfter exampleOutcome) = Normal out2
       /\ downloadContent out2 = downloadContent exampleOutcome.
Proof.
  split; [vm_compute; reflexivity|].
  destruct (@extraction_idempotent exampleHost exampleNow
              (str "2031-12-31T23:59:59.999Z") examplePage exampleOutcome)
    as (_ & out2 & Hrun2 & Hcsv & _); [vm_compute; reflexivity|].
  exists out2. split; assumption.
Defined.

(** C10.  The value returned is the whole collected sequence, unfiltered,
    so it holds every collected record whose selector type is none; its
    length minus the number of data rows of the CSV is the count printed
    in the second console line, and that count is the number of records
    with selector type none. *)
Theorem returns_unfiltered (h : host) (isoNow : jsString) (d : document)
    (out : outcome) :
  extractImportantElements h isoNow d = Normal out ->
  returned out = snd (collect h d)
  /\ (forall r, In r (snd (collect h d)) -> selector_type r = str "none" ->
        In r (returned out))
  /\ exists rows,
       rows = map csvRow (validElementsData (returned out))
       /\ downloadContent out = csvHeader ++ concat rows
       /\ nth_error (consoleLog out) 1
          = Some (skippedLine
                    (Z.of_nat (length (returned out))
                     - Z.of_nat (length rows)))
       /\ (Z.of_nat (length (returned out)) - Z.of_nat (length rows))%Z
          = Z.of_nat (length (filter isNoneRecord (returned out))).
Proof.
  intros Hrun.
  destruct (extract_returned _ _ _ _ Hrun)
    as (_ & _ & Hret & _ & Hcsv & Hlog & _).
  split; [assumption|]. split; [intros r Hin _; now rewrite Hret|].
  eexists. split; [reflexivity|]. split; [|split].
  - rewrite Hcsv. apply csv_closed_form.
  - rewrite Hlog, length_map. reflexivity.
  - rewrite length_map.
    rewrite (filter_length_split _ isNoneRecord (returned out)).
    unfold validElementsData, isNoneRecord. lia.
Qed.

Lemma returns_unfiltered_witness :
  extractImportantElements exampleHost exampleNow examplePage
  = Normal exampleOutcome
  /\ length (returned exampleOutcome) = 4
  /\ nth_error (consoleLog exampleOutcome) 1
     = Some (skippedLine
               (4 - Z.of_nat
                      (length
                         (map csvRow
                            (validElementsData (returned exampleOutcome)))))).
Proof.
  split; [vm_compute; reflexivity|]. split; [reflexivity|].
  destruct (@returns_unfiltered exampleHost exampleNow examplePage
              exampleOutcome)
    as (_ & _ & rows & Hrows & _ & Hlog & _); [vm_compute; reflexivity|].
  rewrite Hlog, Hrows. reflexivity.
Defined.

(** ** Label association *)

Lemma attrIs_true (a : option jsString) (v : jsString) :
  attrIs a v = true <-> a = Some v.
Proof.
  destruct a as [x|]; simpl; [|split; discriminate].
  rewrite strEqb_eq. split; congruence.
Qed.

Lemma isLabelFor_true (id : jsString) (e : element) :
  isLabelFor id e = true <-> localName e = str "label" /\ forAttr e = Some id.
Proof.
  unfold isLabelFor. now rewrite andb_true_iff, strEqb_eq, attrIs_true.
Qed.

Lemma firstLabelFor_some (d : document) (id : jsString) (l : element) :
  firstLabelFor d id = Some l ->
  In l (elementsOf (docChildren d))
  /\ localName l = str "label" /\ forAttr l = Some id.
Proof.
  intros H. apply find_some in H as [Hin Hl].
  now apply isLabelFor_true in Hl.
Qed.

Lemma firstLabelFor_none (d : document) (id : jsString) :
  firstLabelFor d id = None ->
  forall l, In l (elementsOf (docChildren d)) ->
            localName l = str "label" -> forAttr l <> Some id.
Proof.
  intros H l Hin Hname Hfor.
  pose proof (find_none _ _ H l Hin) as Hl.
  assert (isLabelFor id l = true) by now apply isLabelFor_true.
  congruence.
Qed.

Lemma textInputTypes_branch (t : jsString) :
  In t textInputTypes ->
  strEqb t (str "button") || strEqb t (str "submit") = false
  /\ strEqb t (str "checkbox") || strEqb t (str "radio") = false.
Proof.
  unfold textInputTypes. simpl.
  intros [<-|[<-|[<-|[<-|[<-|[<-|[<-|[]]]]]]]]; split; reflexivity.
Qed.

Lemma bracketed_nonempty (t suffix : jsString) :
  str "[" ++ t ++ suffix <> [].
Proof. discriminate. Qed.

(** ** Text-input labeling *)

(** C5, as the code has it.  For an [input] element of one of the seven
    text types whose id needs no escaping in the selector: when the
    document has a label whose [for] attribute is that id, the text is the
    trimmed text of the first such label, and the record is pushed when
    that text is not empty; when it has none, the text is the placeholder
    if not empty, else the bracketed type followed by the word input, and
    the record is pushed. *)
Theorem input_text_label_then_placeholder (h : host) (d : document)
    (e : element) :
  tagName e = str "INPUT" ->
  In (elemType e) textInputTypes ->
  cssStringSafe (elemId e) = true ->
  let mk := fun text =>
    mkRecord (toLowerCase h (tagName e) ++ typeSuffix (elemType e)) text
      (ident_type (getElementIdentifier e))
      (ident_value (getElementIdentifier e)) in
  (forall l, firstLabelFor d (elemId e) = Some l ->
     localName l = str "label" /\ forAttr l = Some (elemId e)
     /\ inputBody h d e
        = Normal (pushIf (trim (textContent l)) (mk (trim (textContent l)))))
  /\ (firstLabelFor d (elemId e) = None ->
      inputBody h d e
      = Normal (Some (mk (orElse (placeholder e)
                            (str "[" ++ elemType e ++ str " input]"))))).
Proof.
  intros Htag Hty Hsafe. cbv zeta.
  assert (Htruthy : truthy (elemType e) = true).
  { apply truthy_true. intros E. rewrite E in Hty.
    unfold textInputTypes in Hty. simpl in Hty.
    repeat (destruct Hty as [Hty|Hty]; [discriminate Hty|]). exact Hty. }
  destruct (textInputTypes_branch _ Hty) as [Hb Hc].
  unfold inputBody. rewrite (querySelectorLabel_safe h d _ Hsafe).
  rewrite Htruthy. split.
  - intros l Hl. destruct (firstLabelFor_some _ _ _ Hl) as (_ & Hn & Hf).
    rewrite Hl. repeat split; assumption.
  - intros Hnone. rewrite Hnone.
    unfold getElementText. rewrite Htag, strEqb_refl, Hb, Hc. cbn [bind].
    unfold pushIf.
    assert (Hne : truthy (orElse (placeholder e)
                            (str "[" ++ elemType e ++ str " input]")) = true).
    { apply truthy_true, orElse_nonempty, bracketed_nonempty. }
    rewrite Hne. reflexivity.
Qed.

Lemma input_text_label_then_placeholder_witness :
  inputBody exampleHost plainInputPage userInput
  = Normal (Some (mkRecord (str "input[type=" ++ [dquote] ++ str "text"
                              ++ [dquote] ++ str "]")
                    (str "Name") (str "id") (str "u"))).
Proof.
  apply (@input_text_label_then_placeholder exampleHost plainInputPage
           userInput);
    [reflexivity | vm_compute; tauto | reflexivity | reflexivity].
Defined.

(** C5 as stated fails: a text input with the placeholder Name and an
    associated label User is recorded with the text User. *)
Lemma input_text_counterexample :
  In userInput (querySelectorAll (docChildren labelledInputPage) inputsSelector)
  /\ placeholder userInput = str "Name"
  /\ inputBody exampleHost labelledInputPage userInput
     = Normal (Some (mkRecord (str "input[type=" ++ [dquote] ++ str "text"
                                 ++ [dquote] ++ str "]")
                       (str "User") (str "id") (str "u")))
  /\ In (mkRecord (str "input[type=" ++ [dquote] ++ str "text"
                     ++ [dquote] ++ str "]")
           (str "User") (str "id") (str "u"))
       (snd (collect exampleHost labelledInputPage))
  /\ str "User"
     <> orElse (placeholder userInput)
          (str "[" ++ elemType userInput ++ str " input]").
Proof.
  split; [vm_compute; tauto|]. split; [reflexivity|].
  split; [vm_compute; reflexivity|].
  split; [vm_compute; tauto | vm_compute; discriminate].
Qed.

(** ** Checkbox and radio labeling *)

(** C6, as the code has it.  For a checkbox or radio [input] whose id
    needs no escaping in the selector: when the document has a label whose
    [for] attribute equals the id exactly, the text is the trimmed text of
    the first such label, and the record is pushed when that text is not
    empty; when it has none, the text is the bracketed type and the record
    is pushed.  An input without an id is looked up with the empty id, so
    it is associated with a label whose [for] attribute is empty, if the
    document has one. *)
Theorem checkbox_label_or_fallback (h : host) (d : document) (e : element) :
  tagName e = str "INPUT" ->
  elemType e = str "checkbox" \/ elemType e = str "radio" ->
  cssStringSafe (elemId e) = true ->
  let mk := fun text =>
    mkRecord (toLowerCase h (tagName e) ++ typeSuffix (elemType e)) text
      (ident_type (getElementIdentifier e))
      (ident_value (getElementIdentifier e)) in
  (forall l, firstLabelFor d (elemId e) = Some l ->
     localName l = str "label" /\ forAttr l = Some (elemId e)
     /\ checkboxBody h d e
        = Normal (pushIf (trim (textContent l)) (mk (trim (textContent l)))))
  /\ (firstLabelFor d (elemId e) = None ->
      (forall l, In l (elementsOf (docChildren d)) ->
                 localName l = str "label" -> forAttr l <> Some (elemId e))
      /\ checkboxBody h d e
         = Normal (Some (mk (str "[" ++ elemType e ++ str "]")))).
Proof.
  intros Htag Hty Hsafe. cbv zeta.
  unfold checkboxBody. rewrite (querySelectorLabel_safe h d _ Hsafe). split.
  - intros l Hl. destruct (firstLabelFor_some _ _ _ Hl) as (_ & Hn & Hf).
    rewrite Hl. repeat split; assumption.
  - intros Hnone. split; [now apply firstLabelFor_none|].
    rewrite Hnone.
    unfold getElementText. rewrite Htag, strEqb_refl.
    rewrite (querySelectorLabel_safe h d _ Hsafe), Hnone.
    destruct Hty as [Hty|Hty]; rewrite Hty; reflexivity.
Qed.

Lemma checkbox_label_or_fallback_witness :
  checkboxBody exampleHost loneCheckboxPage loneCheckbox
  = Normal (Some (mkRecord (str "input[type=" ++ [dquote] ++ str "checkbox"
                              ++ [dquote] ++ str "]")
                    (str "[checkbox]") (str "id") (str "agree"))).
Proof.
  apply (@checkbox_label_or_fallback exampleHost loneCheckboxPage
           loneCheckbox);
    [reflexivity | left; reflexivity | reflexivity | reflexivity].
Defined.

(** C6 as stated fails: a checkbox without an id, in a document with a
    label whose [for] attribute is empty, is recorded with that label's
    text and not with the bracketed fallback. *)
Lemma checkbox_counterexample :
  In anonymousCheckbox
    (querySelectorAll (docChildren emptyForPage) checkboxesAndRadiosSelector)
  /\ elemId anonymousCheckbox = []
  /\ checkboxBody exampleHost emptyForPage anonymousCheckbox
     = Normal (Some (mkRecord (str "input[type=" ++ [dquote] ++ str "checkbox"
                                 ++ [dquote] ++ str "]")
                       (str "Foo") (str "class") (str "c")))
  /\ In (mkRecord (str "input[type=" ++ [dquote] ++ str "checkbox"
                     ++ [dquote] ++ str "]")
           (str "Foo") (str "class") (str "c"))
       (snd (collect exampleHost emptyForPage))
  /\ str "Foo" <> str "[" ++ elemType anonymousCheckbox ++ str "]".
Proof.
  split; [vm_compute; tauto|]. split; [reflexivity|].
  split; [vm_compute; reflexivity|].
  split; [vm_compute; tauto | vm_compute; discriminate].
Qed.

(** ** The generic-text pass *)

Lemma isNonBlankText_true (n : node) :
  isNonBlankText n = true <-> exists data, n = TextNode data /\ trim data <> [].
Proof.
  destruct n as [data|data|el]; simpl.
  - rewrite negb_true_iff, strEqb_neq. split.
    + intros H. now exists data.
    + intros (data' & [= ->] & H). exact H.
  - split; [discriminate | intros (data' & E & _); discriminate].
  - split; [discriminate | intros (data' & E & _); discriminate].
Qed.

Lemma hasDirectText_true (e : element) :
  hasDirectText e = true <-> hasNonBlankTextChild e.
Proof.
  unfold hasDirectText, hasNonBlankTextChild. rewrite existsb_exists. split.
  - intros (n & Hin & Hn). apply isNonBlankText_true in Hn as (data & -> & Ht).
    now exists data.
  - intros (data & Hin & Ht). exists (TextNode data). split; [assumption|].
    apply isNonBlankText_true. now exists data.
Qed.

Lemma matchesAny_important (x : element) :
  matchesAny importantSelector x = true <-> In (localName x) importantNames.
Proof.
  assert (E : matchesAny importantSelector x
              = existsb (strEqb (localName x)) importantNames) by reflexivity.
  rewrite E, existsb_exists. split.
  - intros (n & Hin & Hn). apply strEqb_eq in Hn. now rewrite Hn.
  - intros Hin. exists (localName x). split; [assumption | apply strEqb_refl].
Qed.

Lemma filter_nil_iff (A : Type) (f : A -> bool) (l : list A) :
  filter f l = [] <-> forall x, In x l -> f x = false.
Proof.
  induction l as [|a l IH]; simpl.
  - split; [intros _ x [] | reflexivity].
  - destruct (f a) eqn:E.
    + split; [discriminate|]. intros H.
      specialize (H a (or_introl eq_refl)). congruence.
    + rewrite IH. split.
      * intros H x [<-|Hin]; auto.
      * intros H x Hin. apply H. now right.
Qed.

Lemma containsImportantElements_false (e : element) :
  containsImportantElements e = false <-> noImportantDescendant e.
Proof.
  unfold containsImportantElements, noImportantDescendant, querySelectorAll.
  rewrite Nat.ltb_ge. split.
  - intros Hlen x Hin Hname.
    assert (Hnil : filter (matchesAny importantSelector)
                     (elementsOf (childNodes e)) = []).
    { destruct (filter _ _); [reflexivity | simpl in Hlen; lia]. }
    pose proof (proj1 (filter_nil_iff _ _ _) Hnil x Hin) as Hx.
    apply matchesAny_important in Hname. congruence.
  - intros H.
    assert (Hnil : filter (matchesAny importantSelector)
                     (elementsOf (childNodes e)) = []).
    { apply filter_nil_iff. intros x Hin.
      destruct (matchesAny importantSelector x) eqn:E; [|reflexivity].
      apply matchesAny_important in E. now elim (H x Hin). }
    rewrite Hnil. simpl. lia.
Qed.

Lemma lengthGuard_true (text : jsString) :
  truthy text && Nat.ltb 0 (length text) && Nat.ltb (length text) 200 = true
  <-> text <> [] /\ length text < 200.
Proof.
  rewrite !andb_true_iff, truthy_true, !Nat.ltb_lt. split.
  - tauto.
  - intros [Hne Hlt]. repeat split; try assumption.
    destruct text; [congruence | simpl; lia].
Qed.

Lemma staticTextBody_some (h : host) (e : element) (r : ElementRecord) :
  staticTextBody h e = Normal (Some r) ->
  eligible e
  /\ r = mkRecord (toLowerCase h (tagName e)) (trim (textContent e))
           (ident_type (getElementIdentifier e))
           (ident_value (getElementIdentifier e)).
Proof.
  unfold staticTextBody, eligible.
  destruct (hasDirectText e) eqn:Ha; [|discriminate].
  destruct (truthy _ && _ && _) eqn:Hb; [|discriminate].
  destruct (containsImportantElements e) eqn:Hc; [discriminate|].
  simpl. intros [= <-].
  apply hasDirectText_true in Ha. apply lengthGuard_true in Hb.
  apply containsImportantElements_false in Hc. auto.
Qed.

Lemma staticTextBody_eligible (h : host) (e : element) :
  eligible e ->
  staticTextBody h e
  = Normal (Some (mkRecord (toLowerCase h (tagName e)) (trim (textContent e))
                    (ident_type (getElementIdentifier e))
                    (ident_value (getElementIdentifier e)))).
Proof.
  intros (Ha & Hb & Hc). unfold staticTextBody.
  apply hasDirectText_true in Ha. apply lengthGuard_true in Hb.
  apply containsImportantElements_false in Hc.
  now rewrite Ha, Hb, Hc.
Qed.

(** C7.  The generic-text pass pushes a record for a node exactly when the
    node has a direct Text child that is not blank, its own trimmed text is
    not empty and shorter than 200, and it has no button, input, select,
    link or heading among its descendants; a node that fails one of the
    three leaves the collected sequence as it was. *)
Theorem staticText_admission (h : host) (e : element)
    (elementsData : list ElementRecord) :
  (eligible e ->
     forEach (staticTextBody h) [e] elementsData
     = (Normal tt,
        elementsData
        ++ [mkRecord (toLowerCase h (tagName e)) (trim (textContent e))
              (ident_type (getElementIdentifier e))
              (ident_value (getElementIdentifier e))]))
  /\ (~ eligible e ->
      forEach (staticTextBody h) [e] elementsData = (Normal tt, elementsData)).
Proof.
  split.
  - intros He. cbn [forEach]. now rewrite (staticTextBody_eligible h e He).
  - intros Hne. cbn [forEach].
    destruct (staticTextBody h e) as [[r|]|x] eqn:E.
    + apply staticTextBody_some in E as [He _]. now elim Hne.
    + reflexivity.
    + unfold staticTextBody in E. discriminate.
Qed.

Lemma staticText_admission_witness :
  forEach (staticTextBody exampleHost) [longParagraph] []
  = (Normal tt, [longParagraphRecord]).
Proof.
  apply (proj1 (staticText_admission exampleHost longParagraph [])).
  repeat split.
  - exists (repeat 97%N 150). split; [left; reflexivity | discriminate].
  - discriminate.
  - vm_compute. lia.
  - intros x [].
Defined.

(** ** Truncation *)

Lemma ellipsis_truthy (s : jsString) : truthy (s ++ str "...") = true.
Proof. destruct s; reflexivity. Qed.

(** C3, as the code has it.  A select without an associated label whose
    joined option texts are longer than 100 is recorded with their first
    100 characters followed by three dots; so is the text that
    [getElementText] returns for an element that is not an input, a
    select, a button or a link.  The generic-text pass does not truncate:
    it records the whole trimmed text, which is shorter than 200. *)
Theorem truncation_law (h : host) (d : document) (e : element) :
  (tagName e = str "SELECT" ->
   querySelectorLabel h d (elemId e) = Normal None ->
   let joined :=
     join (str ", ") (map (fun opt => trim (textContent opt)) (options e)) in
   100 < length joined ->
   selectBody h d e
   = Normal (Some (mkRecord (str "select") (firstn 100 joined ++ str "...")
                     (ident_type (getElementIdentifier e))
                     (ident_value (getElementIdentifier e)))))
  /\ (~ In (tagName e) (map str ["INPUT"; "SELECT"; "BUTTON"; "A"]%string) ->
      100 < length (trim (textContent e)) ->
      getElementText h d e
      = Normal (firstn 100 (trim (textContent e)) ++ str "..."))
  /\ (forall r, staticTextBody h e = Normal (Some r) ->
        text_content r = trim (textContent e)
        /\ length (text_content r) < 200).
Proof.
  split; [|split].
  - intros Htag Hlabel joined Hlen.
    unfold selectBody, getElementText.
    rewrite Htag, Hlabel.
    change (strEqb (str "SELECT") (str "INPUT")) with false.
    rewrite strEqb_refl. cbn [bind].
    fold joined. unfold truncate100.
    apply Nat.ltb_lt in Hlen. rewrite Hlen.
    unfold pushIf. now rewrite ellipsis_truthy.
  - intros Htag Hlen. unfold getElementText.
    assert (Hneq : forall s, In (str s) (map str ["INPUT"; "SELECT"; "BUTTON"; "A"]%string)
                             -> strEqb (tagName e) (str s) = false).
    { intros s Hin. apply strEqb_neq. intros E. apply Htag. now rewrite E. }
    rewrite !Hneq by (simpl; tauto).
    unfold truncate100. apply Nat.ltb_lt in Hlen. now rewrite Hlen.
  - intros r Hr. apply staticTextBody_some in Hr as [(_ & [_ Hlt] & _) ->].
    split; [reflexivity | exact Hlt].
Qed.

Lemma truncation_law_witness :
  selectBody exampleHost longSelectPage longSelect
  = Normal (Some (mkRecord (str "select")
                    (repeat 98%N 60 ++ str ", " ++ repeat 99%N 38 ++ str "...")
                    (str "id") (str "country")))
  /\ selectBody exampleHost nestedLongPage nestedLongSelect
     = Normal (Some (mkRecord (str "select")
                       (str "InDiv, " ++ repeat 99%N 93 ++ str "...")
                       (str "id") (str "pick"))).
Proof.
  split.
  - apply (proj1 (truncation_law exampleHost longSelectPage longSelect));
      [reflexivity | reflexivity | vm_compute; lia].
  - apply (proj1 (truncation_law exampleHost nestedLongPage nestedLongSelect));
      [reflexivity | reflexivity | vm_compute; lia].
Defined.

(** C3 as stated fails on the generic-text pass: a paragraph of 150
    letters is recorded with all 150 of them. *)
Lemma truncation_counterexample :
  In longParagraph
    (querySelectorAll (docChildren longParagraphPage) staticTextsSelector)
  /\ staticTextBody exampleHost longParagraph
     = Normal (Some longParagraphRecord)
  /\ collect exampleHost longParagraphPage = (Normal tt, [longParagraphRecord])
  /\ length (trim (textContent longParagraph)) = 150
  /\ text_content longParagraphRecord
     <> firstn 100 (trim (textContent longParagraph)) ++ str "...".
Proof.
  split; [vm_compute; tauto|]. split; [vm_compute; reflexivity|].
  split; [vm_compute; reflexivity|].
  split; [vm_compute; reflexivity | vm_compute; discriminate].
Qed.

(** ** Non-empty text *)

(** C8.  Every record in the collected sequence, whichever pass pushed it
    and whether or not the run went on to return, has a non-empty text; a
    select with no associated label and no option pushes nothing. *)
Theorem collected_text_nonempty (h : host) (d : document) :
  Forall (fun r => text_content r <> []) (snd (collect h d))
  /\ forall (e : element) (elementsData : list ElementRecord),
       tagName e = str "SELECT" ->
       querySelectorLabel h d (elemId e) = Normal None ->
       options e = [] ->
       forEach (selectBody h d) [e] elementsData = (Normal tt, elementsData).
Proof.
  split; [apply collect_nonEmptyText|].
  intros e data Htag Hlabel Hopts. cbn [forEach].
  unfold selectBody, getElementText. rewrite Htag, Hlabel, Hopts.
  reflexivity.
Qed.

Lemma collected_text_nonempty_witness :
  Forall (fun r => text_content r <> [])
    (snd (collect exampleHost examplePage))
  /\ snd (collect exampleHost examplePage) = returned exampleOutcome
  /\ options emptySelect = []
  /\ forEach (selectBody exampleHost emptySelectPage) [emptySelect] []
     = (Normal tt, []).
Proof.
  split; [apply (proj1 (collected_text_nonempty exampleHost examplePage))|].
  split; [vm_compute; reflexivity|]. split; [reflexivity|].
  apply (proj2 (collected_text_nonempty exampleHost emptySelectPage)
           emptySelect []);
    reflexivity.
Defined.

Lemma getElementIdentifier_resolution_witness :
  getElementIdentifier submitButton
  = mkIdentifier (str "id") (str "submit-btn")
  /\ getElementIdentifier anonymousCheckbox
     = mkIdentifier (str "class") (str "c")
  /\ getElementIdentifier longParagraph = mkIdentifier (str "id") (str "x").
Proof.
  split; [|split].
  - apply (proj1 (getElementIdentifier_resolution submitButton)). discriminate.
  - apply (proj1 (proj2 (getElementIdentifier_resolution anonymousCheckbox))
             eq_refl (str "c") eq_refl).
    discriminate.
  - apply (proj1 (getElementIdentifier_resolution longParagraph)). discriminate.
Defined.

(** ** The collected sequence, pass by pass *)

Lemma forEach_closed (body : element -> completion (option ElementRecord))
    (els : list element) (data data' : list ElementRecord) :
  forEach body els data = (Normal tt, data') ->
  data' = data ++ pushedBy body els.
Proof.
  revert data; induction els as [|e els IH]; intros data; simpl.
  - intros [= <-]. now rewrite app_nil_r.
  - unfold pushedBy. simpl. fold (pushedBy body els).
    destruct (body e) as [[r|]|x]; intros H.
    + rewrite (IH _ H), <- app_assoc. reflexivity.
    + now rewrite (IH _ H).
    + discriminate.
Qed.

Lemma runPasses_closed (d : document)
    (ps : list ((element -> completion (option ElementRecord))
                * list selector))
    (data data' : list ElementRecord) :
  runPasses d ps data = (Normal tt, data') ->
  data' = data
          ++ flat_map (fun p => pushedBy (fst p)
                                  (querySelectorAll (docChildren d) (snd p)))
               ps.
Proof.
  revert data; induction ps as [|[body sel] ps IH]; intros data; simpl.
  - intros [= <-]. now rewrite app_nil_r.
  - destruct (forEach body (querySelectorAll (docChildren d) sel) data)
      as [[[]|x] data1] eqn:E; [|discriminate].
    intros H. apply forEach_closed in E. apply IH in H.
    rewrite H, E, <- app_assoc. reflexivity.
Qed.

(** X2.  The value a run returns is the concatenation, in the order buttons,
    form inputs, checkboxes and radios, selects, links, headings, generic
    text, table headers, of what each pass pushes for the elements its
    selector finds, these taken in tree order. *)
Theorem returned_in_category_order (h : host) (isoNow : jsString)
    (d : document) (out : outcome) :
  extractImportantElements h isoNow d = Normal out ->
  let found := querySelectorAll (docChildren d) in
  returned out
  = pushedBy (buttonBody h d) (found buttonsSelector)
    ++ pushedBy (inputBody h d) (found inputsSelector)
    ++ pushedBy (checkboxBody h d) (found checkboxesAndRadiosSelector)
    ++ pushedBy (selectBody h d) (found [Tag (str "select")])
    ++ pushedBy (linkBody h d) (found [Tag (str "a")])
    ++ pushedBy (headingBody h) (found headingsSelector)
    ++ pushedBy (staticTextBody h) (found staticTextsSelector)
    ++ pushedBy tableHeaderBody (found [Tag (str "th")]).
Proof.
  intros Hrun found.
  destruct (extract_returned _ _ _ _ Hrun) as (Hc & _ & Hret & _).
  rewrite Hret. unfold collect in *.
  destruct (runPasses d (passes h d) []) as [c data] eqn:E.
  simpl in Hc. subst c. apply runPasses_closed in E. rewrite E.
  unfold passes. cbn [flat_map fst snd app]. now rewrite app_nil_r.
Qed.

Lemma returned_in_category_order_witness :
  returned exampleOutcome
  = pushedBy (buttonBody exampleHost examplePage)
      (querySelectorAll (docChildren examplePage) buttonsSelector)
    ++ pushedBy (inputBody exampleHost examplePage)
         (querySelectorAll (docChildren examplePage) inputsSelector)
    ++ pushedBy (checkboxBody exampleHost examplePage)
         (querySelectorAll (docChildren examplePage)
            checkboxesAndRadiosSelector)
    ++ pushedBy (selectBody exampleHost examplePage)
         (querySelectorAll (docChildren examplePage) [Tag (str "select")])
    ++ pushedBy (linkBody exampleHost examplePage)
         (querySelectorAll (docChildren examplePage) [Tag (str "a")])
    ++ pushedBy (headingBody exampleHost)
         (querySelectorAll (docChildren examplePage) headingsSelector)
    ++ pushedBy (staticTextBody exampleHost)
         (querySelectorAll (docChildren examplePage) staticTextsSelector)
    ++ pushedBy tableHeaderBody
         (querySelectorAll (docChildren examplePage) [Tag (str "th")]).
Proof.
  apply (returned_in_category_order exampleHost exampleNow examplePage
           exampleOutcome).
  vm_compute; reflexivity.
Defined.

(** ** The passes select disjoint sets of elements *)

Lemma attrIsNoCase_true (a : option jsString) (v : jsString) :
  attrIsNoCase a v = true -> exists x, a = Some x /\ asciiLower x = v.
Proof.
  destruct a as [x|]; simpl; [|discriminate].
  intros H. apply strEqb_eq in H. now exists x.
Qed.

Ltac split_selector H :=
  repeat match type of H with
         | (_ || _) = true => apply orb_true_iff in H; destruct H as [H|H]
         | false = true => discriminate H
         end.

Ltac name_and_type H :=
  match type of H with
  | (strEqb _ _ && attrIsNoCase _ _) = true =>
      let Hn := fresh "Hn" in
      let Ht := fresh "Ht" in
      let x := fresh "x" in
      let Hx := fresh "Hx" in
      apply andb_true_iff in H; destruct H as [Hn Ht];
      apply strEqb_eq in Hn; apply attrIsNoCase_true in Ht;
      destruct Ht as (x & Hx & Ht)
  | strEqb _ _ = true => apply strEqb_eq in H
  end.

Lemma selectors_disjoint (e : element) (i j : nat)
    (sels : list (list selector)) (s1 s2 : list selector) :
  sels = [buttonsSelector; inputsSelector; checkboxesAndRadiosSelector;
          [Tag (str "select")]; [Tag (str "a")]; headingsSelector;
          staticTextsSelector; [Tag (str "th")]] ->
  nth_error sels i = Some s1 -> nth_error sels j = Some s2 ->
  matchesAny s1 e = true -> matchesAny s2 e = true -> i = j.
Proof.
  intros -> Hi Hj H1 H2.
  repeat match goal with
         | H : nth_error (_ :: _) ?k = Some _ |- _ =>
             destruct k; cbn [nth_error] in H; [injection H as <- |]
         | H : nth_error [] ?k = Some _ |- _ => destruct k; discriminate H
         end;
    try reflexivity; exfalso;
    unfold matchesAny, buttonsSelector, inputsSelector,
      checkboxesAndRadiosSelector, headingsSelector, staticTextsSelector
      in H1, H2;
    cbn [existsb matches] in H1, H2;
    split_selector H1; name_and_type H1;
    repeat match goal with
           | E : localName _ = _ |- _ => rewrite E in H2; clear E
           | E : typeAttr _ = _ |- _ => rewrite E in H2; clear E
           end;
    cbn [attrIsNoCase] in H2;
    repeat match goal with
           | E : asciiLower _ = _ |- _ => rewrite E in H2; clear E
           end;
    vm_compute in H2; discriminate H2.
Qed.

(** X4.  No element is selected by two passes: if the selectors of the passes
    at positions [i] and [j] both match an element, then [i = j]. *)
Theorem passes_select_disjoint (h : host) (d : document) (e : element)
    (i j : nat) (b1 b2 : element -> completion (option ElementRecord))
    (s1 s2 : list selector) :
  nth_error (passes h d) i = Some (b1, s1) ->
  nth_error (passes h d) j = Some (b2, s2) ->
  matchesAny s1 e = true -> matchesAny s2 e = true -> i = j.
Proof.
  intros Hi Hj.
  apply (selectors_disjoint e i j (map snd (passes h d))); [reflexivity| |].
  - now rewrite nth_error_map, Hi.
  - now rewrite nth_error_map, Hj.
Qed.

Lemma passes_select_disjoint_witness :
  matchesAny buttonsSelector submitButton = true /\ 0 = 0.
Proof.
  split; [reflexivity|].
  apply (passes_select_disjoint exampleHost examplePage submitButton 0 0
           (buttonBody exampleHost examplePage)
           (buttonBody exampleHost examplePage)
           buttonsSelector buttonsSelector);
    reflexivity.
Defined.

(** ** Trimming *)

Lemma trimStart_nil_iff (s : jsString) :
  trimStart s = [] <-> forallb isWhiteSpace s = true.
Proof.
  induction s as [|c s IH]; simpl; [tauto|].
  destruct (isWhiteSpace c); simpl; [exact IH | split; discriminate].
Qed.

Lemma trimStart_head (s : jsString) (c : N) :
  hd_error (trimStart s) = Some c -> isWhiteSpace c = false.
Proof.
  induction s as [|x s IH]; simpl; [discriminate|].
  destruct (isWhiteSpace x) eqn:E; [exact IH|].
  simpl. now intros [= <-].
Qed.

Lemma trimStart_fixed (s : jsString) :
  (forall c, hd_error s = Some c -> isWhiteSpace c = false) ->
  trimStart s = s.
Proof.
  destruct s as [|x s]; simpl; [reflexivity|].
  intros H. now rewrite (H x eq_refl).
Qed.

Lemma trimStart_split (s : jsString) :
  exists p, s = p ++ trimStart s /\ forallb isWhiteSpace p = true.
Proof.
  induction s as [|c s (p & Hs & Hp)]; simpl.
  - now exists [].
  - destruct (isWhiteSpace c) eqn:E.
    + exists (c :: p). simpl. rewrite E, Hp. split; [now f_equal | reflexivity].
    + now exists [].
Qed.

Lemma forallb_rev (A : Type) (f : A -> bool) (l : list A) :
  forallb f (rev l) = forallb f l.
Proof.
  induction l as [|x l IH]; simpl; [reflexivity|].
  rewrite forallb_app, IH. simpl. rewrite andb_true_r. apply andb_comm.
Qed.

Lemma rev_nil_iff (A : Type) (l : list A) : rev l = [] <-> l = [].
Proof.
  split; [|now intros ->].
  intros H. apply (f_equal (@rev A)) in H. now rewrite rev_involutive in H.
Qed.

Lemma trimEnd_nil_iff (t : jsString) :
  trimEnd t = [] <-> forallb isWhiteSpace t = true.
Proof.
  unfold trimEnd. split.
  - intros H. apply (proj1 (rev_nil_iff _ _)) in H.
    apply (proj1 (trimStart_nil_iff _)) in H.
    now rewrite forallb_rev in H.
  - intros H. apply (proj2 (rev_nil_iff _ _)).
    apply (proj2 (trimStart_nil_iff _)). now rewrite forallb_rev.
Qed.

Lemma trim_nil_iff (s : jsString) :
  trim s = [] <-> forallb isWhiteSpace s = true.
Proof.
  unfold trim. split.
  - intros H. apply (proj1 (trimEnd_nil_iff _)) in H.
    apply (proj1 (trimStart_nil_iff _)).
    destruct (trimStart s) as [|c t] eqn:E; [reflexivity|].
    pose proof (trimStart_head s c) as Hc. rewrite E in Hc.
    simpl in H. rewrite (Hc eq_refl) in H. discriminate.
  - intros H. apply (proj2 (trimStart_nil_iff _)) in H. now rewrite H.
Qed.

Lemma trim_nonempty_iff (s : jsString) :
  trim s <> [] <-> exists c, In c s /\ isWhiteSpace c = false.
Proof.
  rewrite trim_nil_iff. split.
  - intros H. destruct (forallb isWhiteSpace s) eqn:E; [now elim H|].
    clear H. induction s as [|c s IH]; simpl in E; [discriminate|].
    destruct (isWhiteSpace c) eqn:Ec.
    + destruct (IH E) as (c' & Hin & Hc'). exists c'. split; [now right | assumption].
    + exists c. split; [now left | assumption].
  - intros (c & Hin & Hc) H.
    rewrite forallb_forall in H. rewrite (H c Hin) in Hc. discriminate.
Qed.

Lemma hd_error_app_nonempty (A : Type) (l m : list A) :
  l <> [] -> hd_error (l ++ m) = hd_error l.
Proof. destruct l; [congruence | reflexivity]. Qed.

Lemma trim_noOuterWhiteSpace (s : jsString) : noOuterWhiteSpace (trim s).
Proof.
  unfold noOuterWhiteSpace, trim, trimEnd.
  set (t := trimStart s).
  destruct (trimStart_split (rev t)) as (p & Hrev & Hp).
  set (u := trimStart (rev t)) in *.
  split.
  - intros c Hc.
    destruct u as [|x u'] eqn:Eu; [discriminate Hc|].
    assert (Ht : t = rev (x :: u') ++ rev p).
    { rewrite <- rev_app_distr, <- Hrev. now rewrite rev_involutive. }
    apply (trimStart_head s c). fold t. rewrite Ht.
    rewrite hd_error_app_nonempty; [exact Hc|].
    simpl. now destruct (rev u').
  - intros c. rewrite rev_involutive. apply trimStart_head.
Qed.

Lemma trim_idempotent (s : jsString) : trim (trim s) = trim s.
Proof.
  destruct (trim_noOuterWhiteSpace s) as [Hhd Hlast].
  unfold trim at 1. rewrite (trimStart_fixed _ Hhd).
  unfold trimEnd. rewrite (trimStart_fixed _ Hlast).
  apply rev_involutive.
Qed.

(** ** The selector fields of a record *)

Lemma getElementIdentifier_cases (e : element) :
  (ident_type (getElementIdentifier e) = str "id"
   /\ ident_value (getElementIdentifier e) = elemId e /\ elemId e <> [])
  \/ (ident_type (getElementIdentifier e) = str "class"
      /\ elemId e = []
      /\ exists c, className e = ClassString c
                   /\ ident_value (getElementIdentifier e) = trim c
                   /\ trim c <> [])
  \/ (ident_type (getElementIdentifier e) = str "none"
      /\ ident_value (getElementIdentifier e) = str "no-id-or-class"
      /\ elemId e = []).
Proof.
  unfold getElementIdentifier.
  destruct (truthy (elemId e)) eqn:Eid.
  - left. apply truthy_true in Eid. auto.
  - apply truthy_false in Eid. right.
    destruct (className e) as [c|]; [|right; auto].
    destruct (truthy c && negb (strEqb (trim c) [])) eqn:Ec.
    + left. apply andb_true_iff in Ec as [_ Ec].
      apply negb_true_iff, strEqb_neq in Ec.
      repeat split; try assumption. exists c. auto.
    + right. auto.
Qed.

Lemma pushIf_fields (e : element) (text et : jsString) (r : ElementRecord) :
  pushIf text
    (mkRecord et text (ident_type (getElementIdentifier e))
       (ident_value (getElementIdentifier e))) = Some r ->
  selectorFieldsOf e r.
Proof.
  intros H. apply pushIf_some in H as [-> _]. now split.
Qed.

Lemma passes_selector_fields (h : host) (d : document) body sel
    (e : element) (r : ElementRecord) :
  In (body, sel) (passes h d) -> body e = Normal (Some r) ->
  selectorFieldsOf e r.
Proof.
  unfold passes. simpl.
  intros [E|[E|[E|[E|[E|[E|[E|[E|[]]]]]]]]]; injection E as <- _;
    unfold buttonBody, inputBody, checkboxBody, selectBody, linkBody,
      headingBody, staticTextBody, tableHeaderBody.
  - destruct (getElementText h d e); simpl; [|discriminate].
    intros [= H]. now apply pushIf_fields in H.
  - destruct (querySelectorLabel h d (elemId e)) as [[l|]|]; simpl;
      [| destruct (getElementText h d e); simpl |]; try discriminate;
      intros [= H]; now apply pushIf_fields in H.
  - destruct (querySelectorLabel h d (elemId e)) as [[l|]|]; simpl;
      [| destruct (getElementText h d e); simpl |]; try discriminate;
      intros [= H]; now apply pushIf_fields in H.
  - destruct (getElementText h d e); simpl; [|discriminate].
    intros [= H]. now apply pushIf_fields in H.
  - destruct (getElementText h d e) as [text|]; simpl; [|discriminate].
    destruct (truthy text && negb (strEqb text (str "[link]")));
      [|discriminate].
    intros [= <-]. now split.
  - intros [= H]. now apply pushIf_fields in H.
  - destruct (hasDirectText e); [|discriminate].
    destruct (truthy _ && _ && _); [|discriminate].
    destruct (negb _); [|discriminate].
    intros [= <-]. now split.
  - intros [= H]. now apply pushIf_fields in H.
Qed.

(** X5.  Every collected record has one of three shapes of selector: type id
    with a non-empty value; type class with a non-empty value that neither
    starts nor ends with white space; type none with the value
    no-id-or-class. *)
Theorem collected_selector_fields (h : host) (d : document) :
  Forall (fun r =>
            (selector_type r = str "id" /\ selector_value r <> [])
            \/ (selector_type r = str "class" /\ selector_value r <> []
                /\ noOuterWhiteSpace (selector_value r))
            \/ (selector_type r = str "none"
                /\ selector_value r = str "no-id-or-class"))
    (snd (collect h d)).
Proof.
  unfold collect. apply runPasses_Forall; [|constructor].
  intros body sel e r Hin Hb.
  destruct (passes_selector_fields h d body sel e r Hin Hb) as [-> ->].
  destruct (getElementIdentifier_cases e)
    as [(-> & -> & Hid)|[(-> & _ & c & _ & -> & Hc)|(-> & -> & _)]].
  - left. auto.
  - right; left. repeat split; try assumption; apply trim_noOuterWhiteSpace.
  - right; right. auto.
Qed.

(** ** Direct text makes the own text non-empty *)

Lemma nodeText_child (e : element) (data : jsString) (c : N) :
  In (TextNode data) (childNodes e) -> In c data -> In c (textContent e).
Proof.
  intros Hin Hc. unfold textContent. apply in_concat.
  exists data. split; [|assumption].
  apply in_map_iff. now exists (TextNode data).
Qed.

(** X6.  An element with a direct Text child that is not blank has a non-empty
    trimmed text of its own: the emptiness test of the generic-text pass
    never fails once the direct-text test has passed, so the pass pushes a
    record exactly when the element has such a child, its trimmed text is
    shorter than 200 and no important element is below it. *)
Theorem staticText_emptiness_test_redundant (h : host) (e : element) :
  (hasNonBlankTextChild e -> trim (textContent e) <> [])
  /\ ((exists r, staticTextBody h e = Normal (Some r))
      <-> hasNonBlankTextChild e
          /\ length (trim (textContent e)) < 200
          /\ noImportantDescendant e).
Proof.
  assert (Hne : hasNonBlankTextChild e -> trim (textContent e) <> []).
  { intros (data & Hin & Ht).
    apply trim_nonempty_iff in Ht as (c & Hc & Hws).
    apply trim_nonempty_iff. exists c. split; [|assumption].
    now apply (nodeText_child e data). }
  split; [exact Hne|]. split.
  - intros (r & Hr). apply staticTextBody_some in Hr as [(Ha & [_ Hb] & Hc) _].
    auto.
  - intros (Ha & Hb & Hc). eexists.
    apply staticTextBody_eligible. repeat split; auto.
Qed.

Lemma staticText_emptiness_test_redundant_witness :
  trim (textContent longParagraph) <> [].
Proof.
  apply (proj1 (staticText_emptiness_test_redundant exampleHost longParagraph)).
  exists (repeat 97%N 150). split; [left; reflexivity | discriminate].
Defined.

(** ** Reading the file back *)

Lemma expect_newline (s : jsString) : expect newline ([newline] ++ s) = Some s.
Proof. reflexivity. Qed.

Lemma readRecord_csvRow (r : ElementRecord) (rest : jsString) :
  readRecord (csvRow r ++ rest) = Some (r, rest).
Proof.
  destruct r as [f1 f2 f3 f4]. unfold csvRow, readRecord.
  cbn [element_type text_content selector_type selector_value].
  rewrite <- !app_assoc.
  rewrite readField_quoted, expect_comma by (cbn; discriminate).
  rewrite readField_quoted, expect_comma by (cbn; discriminate).
  rewrite readField_quoted, expect_comma by (cbn; discriminate).
  rewrite readField_quoted, expect_newline by (cbn; discriminate).
  reflexivity.
Qed.

Lemma csvRow_cons (r : ElementRecord) :
  exists t, csvRow r = dquote :: t.
Proof. unfold csvRow, quoted. simpl. eexists. reflexivity. Qed.

Lemma readRecords_rows (l : list ElementRecord) (fuel : nat) :
  length l <= fuel ->
  readRecords fuel (concat (map csvRow l)) = Some l.
Proof.
  revert fuel; induction l as [|r l IH]; intros fuel Hfuel.
  - now destruct fuel.
  - simpl in Hfuel. destruct fuel as [|fuel]; [lia|].
    cbn [map concat].
    destruct (csvRow_cons r) as (t & Ht).
    assert (E : csvRow r ++ concat (map csvRow l)
                = dquote :: t ++ concat (map csvRow l)) by now rewrite Ht.
    rewrite E. cbn [readRecords]. rewrite <- E.
    rewrite readRecord_csvRow, IH by lia. reflexivity.
Qed.

Lemma rows_length (l : list ElementRecord) :
  length l <= length (concat (map csvRow l)).
Proof.
  induction l as [|r l IH]; cbn [map concat]; [simpl; lia|].
  rewrite length_app. destruct (csvRow_cons r) as (t & ->). simpl. lia.
Qed.

Lemma stripPrefix_app (p s : jsString) : stripPrefix p (p ++ s) = Some s.
Proof.
  induction p as [|x p IH]; simpl; [now destruct s|].
  now rewrite N.eqb_refl.
Qed.

(** X7.  The file can be read back: splitting the text after the header into
    quoted fields, with doubled quotes undone, gives exactly the records
    that were written, in order, whatever commas, quotes or newlines their
    fields contain.  So two record lists with the same file are equal. *)
Theorem csv_reads_back (records : list ElementRecord) :
  readCsv (csv records) = Some records
  /\ forall records', csv records' = csv records -> records' = records.
Proof.
  assert (H : forall l, readCsv (csv l) = Some l).
  { intros l. unfold readCsv. rewrite csv_closed_form, stripPrefix_app.
    apply readRecords_rows, rows_length. }
  split; [apply H|].
  intros records' E. pose proof (H records') as H'.
  rewrite E, H in H'. now injection H'.
Qed.

(** ** The file name *)

Ltac compare_units :=
  repeat first
    [ progress cbn [andb orb negb] in *
    | match goal with
      | |- context [N.leb ?a ?b] => destruct (N.leb_spec a b)
      | |- context [N.eqb ?a ?b] => destruct (N.eqb_spec a b)
      end ].

Lemma sanitized_unit (c : N) :
  let c' := if isAsciiAlnum c then c else 95%N in
  (c' < 128)%N /\ isFileNameUnit (asciiLowerUnit c') = true.
Proof.
  unfold isAsciiAlnum, isFileNameUnit, asciiLowerUnit. cbv zeta.
  compare_units; split; try reflexivity; try lia; exfalso; lia.
Qed.

Lemma sanitizeTitle_ascii (t : jsString) :
  Forall (fun c => (c < 128)%N) (sanitizeTitle t).
Proof.
  unfold sanitizeTitle. apply Forall_forall. intros c Hin.
  apply in_map_iff in Hin as (x & <- & _). apply (sanitized_unit x).
Qed.

Lemma lowered_sanitized_units (t : jsString) :
  forallb isFileNameUnit (asciiLower (sanitizeTitle t)) = true.
Proof.
  unfold asciiLower, sanitizeTitle. rewrite map_map. apply forallb_forall.
  intros c Hin. apply in_map_iff in Hin as (x & <- & _).
  apply (sanitized_unit x).
Qed.

Lemma fileNameUnit_kept (c : N) :
  isFileNameUnit c = true ->
  asciiLowerUnit (if isAsciiAlnum c then c else 95%N) = c.
Proof.
  unfold isAsciiAlnum, isFileNameUnit, asciiLowerUnit.
  intros Hunit. revert Hunit.
  compare_units; intros Hunit; try reflexivity; try discriminate Hunit;
    try lia; exfalso; lia.
Qed.

(** X8.  With a host that lower-cases ASCII text as the language prescribes:
    the stem of the file name is never empty and holds only lower-case
    letters, digits and underscores; it is [webpage] for an empty title,
    has the length of the title otherwise, and is the title itself when
    the title already holds only such characters. *)
Theorem pageTitle_shape (h : host) (d : document) :
  lowersAscii h ->
  pageTitle h d <> []
  /\ forallb isFileNameUnit (pageTitle h d) = true
  /\ (title d = [] -> pageTitle h d = str "webpage")
  /\ (title d <> [] -> length (pageTitle h d) = length (title d))
  /\ (title d <> [] -> forallb isFileNameUnit (title d) = true ->
      pageTitle h d = title d).
Proof.
  intros Hlow. unfold pageTitle.
  rewrite (Hlow _ (sanitizeTitle_ascii (title d))).
  destruct (title d) as [|c t] eqn:Et.
  - repeat split; try reflexivity; try discriminate; congruence.
  - assert (Htr : truthy (asciiLower (sanitizeTitle (c :: t))) = true)
      by reflexivity.
    unfold orElse. rewrite Htr. split; [discriminate|].
    split; [apply lowered_sanitized_units|].
    split; [discriminate|]. split.
    + intros _. unfold asciiLower, sanitizeTitle. now rewrite !length_map.
    + intros _ Hunits. unfold asciiLower, sanitizeTitle. rewrite map_map.
      rewrite <- (map_id (c :: t)) at 2. apply map_ext_in.
      intros x Hin. rewrite forallb_forall in Hunits.
      apply fileNameUnit_kept. now apply Hunits.
Qed.

Lemma pageTitle_shape_witness :
  pageTitle exampleHost examplePage = str "my_page_"
  /\ forallb isFileNameUnit (pageTitle exampleHost examplePage) = true.
Proof.
  split; [reflexivity|].
  apply (pageTitle_shape exampleHost examplePage).
  intros s _. reflexivity.
Defined.

(** ** Buttons and links *)

(** X9.  A button always yields a record: a [button] element with its trimmed
    text, or [[button]] when that is empty; an [input] of type button or
    submit with its value, else its placeholder, else the bracketed type
    followed by the word button. *)
Theorem button_always_recorded (h : host) (d : document) (e : element) :
  let mk := fun text =>
    mkRecord (toLowerCase h (tagName e)
                ++ (if truthy (elemType e) then typeSuffix (elemType e)
                    else []))
      text
      (ident_type (getElementIdentifier e))
      (ident_value (getElementIdentifier e)) in
  (tagName e = str "BUTTON" ->
   buttonBody h d e
   = Normal (Some (mk (orElse (trim (textContent e)) (str "[button]")))))
  /\ (tagName e = str "INPUT" ->
      elemType e = str "button" \/ elemType e = str "submit" ->
      buttonBody h d e
      = Normal (Some (mk (orElse (elemValue e)
                            (orElse (placeholder e)
                               (str "[" ++ elemType e ++ str " button]")))))).
Proof.
  cbv zeta. split.
  - intros Htag. unfold buttonBody, getElementText. rewrite Htag.
    change (strEqb (str "BUTTON") (str "INPUT")) with false.
    change (strEqb (str "BUTTON") (str "SELECT")) with false.
    rewrite strEqb_refl. cbn [bind]. unfold pushIf.
    assert (Hne : truthy (orElse (trim (textContent e)) (str "[button]"))
                  = true).
    { apply truthy_true, orElse_nonempty. discriminate. }
    now rewrite Hne.
  - intros Htag Hty. unfold buttonBody, getElementText.
    rewrite Htag, strEqb_refl.
    assert (Hb : strEqb (elemType e) (str "button")
                 || strEqb (elemType e) (str "submit") = true).
    { destruct Hty as [-> | ->]; reflexivity. }
    rewrite Hb. cbn [bind]. unfold pushIf.
    assert (Hne : truthy (orElse (elemValue e)
                            (orElse (placeholder e)
                               (str "[" ++ elemType e ++ str " button]")))
                  = true).
    { apply truthy_true, orElse_nonempty, orElse_nonempty,
        bracketed_nonempty. }
    now rewrite Hne.
Qed.

Lemma button_always_recorded_witness :
  buttonBody exampleHost examplePage submitButton
  = Normal (Some (mkRecord (str "button[type=" ++ [dquote] ++ str "submit"
                              ++ [dquote] ++ str "]")
                    (str "Submit") (str "id") (str "submit-btn"))).
Proof.
  apply (proj1 (button_always_recorded exampleHost examplePage submitButton)).
  reflexivity.
Defined.

(** X10.  A link is recorded with its trimmed text when that text is neither
    empty nor the literal [[link]]; otherwise nothing is pushed, so the
    fallback label of a link never reaches the collected sequence and a
    link whose own text is that literal is dropped as well. *)
Theorem link_without_text_skipped (h : host) (d : document) (e : element) :
  tagName e = str "A" ->
  let t := trim (textContent e) in
  (t <> [] -> t <> str "[link]" ->
   linkBody h d e
   = Normal (Some (mkRecord (str "a") t
                     (ident_type (getElementIdentifier e))
                     (ident_value (getElementIdentifier e)))))
  /\ (t = [] \/ t = str "[link]" -> linkBody h d e = Normal None).
Proof.
  intros Htag t. unfold linkBody, getElementText. rewrite Htag.
  change (strEqb (str "A") (str "INPUT")) with false.
  change (strEqb (str "A") (str "SELECT")) with false.
  change (strEqb (str "A") (str "BUTTON")) with false.
  rewrite strEqb_refl. cbn [bind]. fold t. split.
  - intros Hne Hlink. unfold orElse.
    apply truthy_true in Hne. rewrite Hne. cbv iota. rewrite Hne.
    apply strEqb_neq in Hlink. now rewrite Hlink.
  - intros [E|E]; rewrite E; reflexivity.
Qed.

Lemma link_without_text_skipped_witness :
  linkBody exampleHost examplePage fallbackLink = Normal None.
Proof.
  apply (link_without_text_skipped exampleHost examplePage fallbackLink);
    [reflexivity | right; reflexivity].
Defined.

(** ** Selects, textareas, headings and table headers *)

(** X11.  A select for which the label query finds a label is recorded with the
    label's trimmed text, whole, and only when that text is not empty; its
    options play no part. *)
Theorem select_label_over_options (h : host) (d : document)
    (e l : element) :
  tagName e = str "SELECT" ->
  querySelectorLabel h d (elemId e) = Normal (Some l) ->
  selectBody h d e
  = Normal (pushIf (trim (textContent l))
              (mkRecord (str "select") (trim (textContent l))
                 (ident_type (getElementIdentifier e))
                 (ident_value (getElementIdentifier e)))).
Proof.
  intros Htag Hl. unfold selectBody, getElementText. rewrite Htag, Hl.
  change (strEqb (str "SELECT") (str "INPUT")) with false.
  now rewrite strEqb_refl.
Qed.

Lemma select_label_over_options_witness :
  selectBody exampleHost labelledSelectPage labelledSelect
  = Normal (Some (mkRecord (str "select") (repeat 100%N 120)
                    (str "id") (str "country"))).
Proof.
  rewrite (select_label_over_options exampleHost labelledSelectPage
             labelledSelect
             (labelElement (str "country") [TextNode (repeat 100%N 120)]));
    reflexivity.
Defined.

Lemma generic_branch (h : host) (d : document) (e : element) :
  ~ In (tagName e) (map str ["INPUT"; "SELECT"; "BUTTON"; "A"]%string) ->
  getElementText h d e = Normal (truncate100 (trim (textContent e))).
Proof.
  intros Htag. unfold getElementText.
  assert (Hneq : forall s,
             In (str s) (map str ["INPUT"; "SELECT"; "BUTTON"; "A"]%string)
             -> strEqb (tagName e) (str s) = false).
  { intros s Hin. apply strEqb_neq. intros E. apply Htag. now rewrite E. }
  now rewrite !Hneq by (simpl; tauto).
Qed.

(** X12.  An element of the form-inputs pass that is not an [INPUT] (a
    textarea) and has no label found is recorded with its own trimmed
    text, cut to 100 characters and three dots when longer; its
    placeholder is not looked at, and it is not recorded at all when its
    text holds nothing but white space. *)
Theorem textarea_text_not_placeholder (h : host) (d : document)
    (e : element) :
  ~ In (tagName e) (map str ["INPUT"; "SELECT"; "BUTTON"; "A"]%string) ->
  querySelectorLabel h d (elemId e) = Normal None ->
  let t := truncate100 (trim (textContent e)) in
  inputBody h d e
  = Normal (pushIf t
              (mkRecord
                 (toLowerCase h (tagName e)
                    ++ (if truthy (elemType e) then typeSuffix (elemType e)
                        else []))
                 t
                 (ident_type (getElementIdentifier e))
                 (ident_value (getElementIdentifier e))))
  /\ (forallb isWhiteSpace (textContent e) = true ->
      inputBody h d e = Normal None).
Proof.
  intros Htag Hl t.
  assert (E : inputBody h d e
              = Normal (pushIf t
                          (mkRecord
                             (toLowerCase h (tagName e)
                                ++ (if truthy (elemType e)
                                    then typeSuffix (elemType e) else []))
                             t
                             (ident_type (getElementIdentifier e))
                             (ident_value (getElementIdentifier e))))).
  { unfold inputBody. rewrite Hl. cbn [bind].
    now rewrite (generic_branch h d e Htag). }
  split; [exact E|].
  intros Hws. rewrite E. unfold t.
  apply (proj2 (trim_nil_iff _)) in Hws. now rewrite Hws.
Qed.

Lemma textarea_text_not_placeholder_witness :
  placeholder emptyTextarea = str "Type here"
  /\ inputBody exampleHost textareaPage emptyTextarea = Normal None.
Proof.
  split; [reflexivity|].
  apply (textarea_text_not_placeholder exampleHost textareaPage emptyTextarea);
    [simpl; intros [H|[H|[H|[H|[]]]]]; discriminate H
    | reflexivity | reflexivity].
Defined.

Lemma truncate100_length (s : jsString) : length (truncate100 s) <= 103.
Proof.
  unfold truncate100. destruct (Nat.ltb_spec 100 (length s)); [|lia].
  rewrite length_app, length_firstn.
  change (length (str "...")) with 3. lia.
Qed.

(** X13.  For a select without a label found, the text [getElementText]
    gives is never longer than 103 characters and is the comma-joined
    option texts, untouched, when those have at most 100.  For an element
    that is not an input, select, button or link, it is never longer than
    103 characters and is the trimmed text content, untouched, when that
    has at most 100. *)
Theorem getElementText_bounded (h : host) (d : document) (e : element)
    (t : jsString) :
  getElementText h d e = Normal t ->
  (tagName e = str "SELECT" ->
   querySelectorLabel h d (elemId e) = Normal None ->
   let joined :=
     join (str ", ") (map (fun opt => trim (textContent opt)) (options e)) in
   length t <= 103 /\ (length joined <= 100 -> t = joined))
  /\ (~ In (tagName e) (map str ["INPUT"; "SELECT"; "BUTTON"; "A"]%string) ->
      length t <= 103
      /\ (length (trim (textContent e)) <= 100 -> t = trim (textContent e))).
Proof.
  intros Ht. split.
  - intros Htag Hl joined.
    unfold getElementText in Ht. rewrite Htag, Hl in Ht.
    change (strEqb (str "SELECT") (str "INPUT")) with false in Ht.
    rewrite strEqb_refl in Ht. cbn [bind] in Ht. fold joined in Ht.
    injection Ht as <-. split; [apply truncate100_length|].
    intros Hlen. unfold truncate100.
    destruct (Nat.ltb_spec 100 (length joined)); [lia | reflexivity].
  - intros Htag. rewrite (generic_branch h d e Htag) in Ht.
    injection Ht as <-. split; [apply truncate100_length|].
    intros Hlen. unfold truncate100.
    destruct (Nat.ltb_spec 100 (length (trim (textContent e))));
      [lia | reflexivity].
Qed.

Lemma getElementText_bounded_witness :
  length (repeat 98%N 60 ++ str ", " ++ repeat 99%N 38 ++ str "...") <= 103
  /\ getElementText exampleHost nestedOptionPage nestedOptionSelect
     = Normal (str "InDiv, Plain").
Proof.
  split.
  - apply (proj1 (getElementText_bounded exampleHost longSelectPage longSelect
                    (repeat 98%N 60 ++ str ", " ++ repeat 99%N 38 ++ str "...")
                    eq_refl));
      reflexivity.
  - destruct (proj1 (getElementText_bounded exampleHost nestedOptionPage
                       nestedOptionSelect (str "InDiv, Plain") eq_refl)
                eq_refl eq_refl) as [_ Hsame].
    reflexivity.
Defined.

(** X14.  A heading, and likewise a table header, is recorded exactly when its
    text content holds a character that is not white space; the text
    recorded is the whole trimmed text, whatever its length. *)
Theorem heading_recorded_iff_visible_text (h : host) (e : element) :
  let visible := exists c, In c (textContent e) /\ isWhiteSpace c = false in
  (visible ->
   headingBody h e
   = Normal (Some (mkRecord (toLowerCase h (tagName e))
                     (trim (textContent e))
                     (ident_type (getElementIdentifier e))
                     (ident_value (getElementIdentifier e))))
   /\ tableHeaderBody e
      = Normal (Some (mkRecord (str "th") (trim (textContent e))
                        (ident_type (getElementIdentifier e))
                        (ident_value (getElementIdentifier e)))))
  /\ (~ visible ->
      headingBody h e = Normal None /\ tableHeaderBody e = Normal None).
Proof.
  cbv zeta. unfold headingBody, tableHeaderBody, pushIf. split.
  - intros Hv. apply trim_nonempty_iff, truthy_true in Hv. now rewrite Hv.
  - intros Hv.
    assert (E : truthy (trim (textContent e)) = false).
    { apply truthy_false. destruct (trim (textContent e)) eqn:Et;
        [reflexivity|].
      elim Hv. apply trim_nonempty_iff. rewrite Et. discriminate. }
    now rewrite E.
Qed.

Lemma heading_recorded_iff_visible_text_witness :
  tableHeaderBody longParagraph
  = Normal (Some (mkRecord (str "th") (repeat 97%N 150) (str "id") (str "x"))).
Proof.
  apply (proj1 (heading_recorded_iff_visible_text exampleHost longParagraph)).
  exists 97%N. split; [left; reflexivity | reflexivity].
Defined.

(** ** A rejected selector ends the run *)

Lemma forEach_throws (body : element -> completion (option ElementRecord))
    (els : list element) (data : list ElementRecord) (e : element) :
  In e els -> (exists x, body e = Throw x) ->
  exists x, fst (forEach body els data) = Throw x.
Proof.
  revert data; induction els as [|e' els IH]; intros data Hin Hb;
    [destruct Hin|].
  simpl. destruct (body e') as [[r|]|x'] eqn:E.
  - destruct Hin as [->|Hin]; [|now apply IH].
    destruct Hb as (x & Hb). congruence.
  - destruct Hin as [->|Hin]; [|now apply IH].
    destruct Hb as (x & Hb). congruence.
  - now exists x'.
Qed.

Lemma runPasses_throws (d : document)
    (ps : list ((element -> completion (option ElementRecord))
                * list selector))
    (data : list ElementRecord) body sel (e : element) :
  In (body, sel) ps ->
  In e (querySelectorAll (docChildren d) sel) ->
  (exists x, body e = Throw x) ->
  exists x, fst (runPasses d ps data) = Throw x.
Proof.
  revert data; induction ps as [|[b s] ps IH]; intros data Hin He Hb;
    [destruct Hin|].
  simpl.
  destruct (forEach b (querySelectorAll (docChildren d) s) data)
    as [[u|x] data1] eqn:E.
  - destruct Hin as [[= -> ->]|Hin]; [|now apply IH].
    destruct (forEach_throws body _ data e He Hb) as (x & Hx).
    rewrite E in Hx. discriminate Hx.
  - now exists x.
Qed.

(** X15.  When the id of an element selected by the form-inputs pass or by the
    checkbox pass needs escaping and the host rejects the selector built
    from it, the whole run ends abruptly: nothing is downloaded, logged or
    returned, whatever else the page holds. *)
Theorem rejected_selector_ends_run (h : host) (isoNow : jsString)
    (d : document) (e : element) (x : exception) :
  In e (querySelectorAll (docChildren d) inputsSelector)
  \/ In e (querySelectorAll (docChildren d) checkboxesAndRadiosSelector) ->
  cssStringSafe (elemId e) = false ->
  hostQuerySelector h d (labelSelector (elemId e)) = Throw x ->
  exists x', extractImportantElements h isoNow d = Throw x'.
Proof.
  intros Hin Hunsafe Hhost.
  assert (Hq : querySelectorLabel h d (elemId e) = Throw x).
  { unfold querySelectorLabel. now rewrite Hunsafe. }
  assert (Hc : exists x', fst (collect h d) = Throw x').
  { unfold collect. destruct Hin as [Hin|Hin].
    - apply (runPasses_throws d (passes h d) [] (inputBody h d)
               inputsSelector e); [simpl; tauto | exact Hin |].
      exists x. unfold inputBody. now rewrite Hq.
    - apply (runPasses_throws d (passes h d) []
               (checkboxBody h d) checkboxesAndRadiosSelector e);
        [simpl; tauto | exact Hin |].
      exists x. unfold checkboxBody. now rewrite Hq. }
  destruct Hc as (x' & Hc). exists x'.
  unfold extractImportantElements.
  destruct (collect h d) as [[u|x''] data]; simpl in Hc; congruence.
Qed.

Lemma rejected_selector_ends_run_witness :
  extractImportantElements exampleHost exampleNow newlineIdPage
  = Throw SyntaxError.
Proof.
  destruct (rejected_selector_ends_run exampleHost exampleNow newlineIdPage
              newlineIdInput SyntaxError) as (x' & Hx');
    [left; vm_compute; tauto | reflexivity | reflexivity |].
  rewrite Hx'. destruct x'; [reflexivity|].
  vm_compute in Hx'. discriminate Hx'.
Defined.

Lemma csv_reads_back_witness :
  readCsv (downloadContent exampleOutcome)
  = Some (validElementsData (returned exampleOutcome)).
Proof.
  change (downloadContent exampleOutcome)
    with (csv (validElementsData (returned exampleOutcome))).
  apply (proj1 (csv_reads_back (validElementsData (returned exampleOutcome)))).
Defined.
